(** * switchbot_bot: the read / repeat-detection / publish pipeline of main.go

    A shallow embedding of [main.go].  Go strings are byte strings and are
    modelled by [string] (one [ascii] per byte); [int] is modelled by [Z];
    [float64] by the IEEE-754 binary64 instance of [spec_float]; a nullable
    pointer [*T] by [option T]; a function returning [(v, error)] by a pair or
    a sum carrying the error.  *)

From Stdlib Require Import ZArith List String Ascii Bool Lia.
From Stdlib Require Import SpecFloat DecimalString DecimalPos.
Import ListNotations.

Local Open Scope string_scope.
Local Open Scope Z_scope.

(** ** Byte strings *)

Module GoString.

(** The one-byte string ["\n"]. *)
Definition nl : string := String (ascii_of_nat 10) EmptyString.

(** [s[n:]] *)
Fixpoint drop (n : nat) (s : string) : string :=
  match n, s with
  | O, _ => s
  | S n', String _ s' => drop n' s'
  | S _, EmptyString => EmptyString
  end.

(** [strings.HasPrefix(s, p)] *)
Fixpoint HasPrefix (s p : string) {struct p} : bool :=
  match p with
  | EmptyString => true
  | String c p' =>
      match s with
      | EmptyString => false
      | String d s' => Ascii.eqb c d && HasPrefix s' p'
      end
  end.

(** Position of the first occurrence of [sub] in [s], scanning from the
    left. *)
Fixpoint firstIndex (s sub : string) : option nat :=
  if HasPrefix s sub then Some O
  else match s with
       | EmptyString => None
       | String _ s' => option_map S (firstIndex s' sub)
       end.

(** [strings.Index(s, sub)]: the byte index of the first occurrence, or
    [-1]. *)
Definition Index (s sub : string) : Z :=
  match firstIndex s sub with
  | Some i => Z.of_nat i
  | None => -1
  end.

(** [strings.Join(elems, sep)] *)
Fixpoint Join (elems : list string) (sep : string) : string :=
  match elems with
  | [] => ""
  | [x] => x
  | x :: rest => x ++ sep ++ Join rest sep
  end.

(** Longest prefix of [s] whose bytes all satisfy [cls], and the rest. *)
Fixpoint span (cls : ascii -> bool) (s : string) : string * string :=
  match s with
  | EmptyString => (EmptyString, EmptyString)
  | String c s' =>
      if cls c then let '(a, b) := span cls s' in (String c a, b)
      else (EmptyString, s)
  end.

Definition isDigit (c : ascii) : bool :=
  let n := nat_of_ascii c in (48 <=? n)%nat && (n <=? 57)%nat.

Definition isDot (c : ascii) : bool := Ascii.eqb c ".".

Definition isEmpty (s : string) : bool :=
  match s with EmptyString => true | _ => false end.

Fixpoint all (cls : ascii -> bool) (s : string) : bool :=
  match s with
  | EmptyString => true
  | String c s' => cls c && all cls s'
  end.

End GoString.
Import GoString.

(** ** Numbers: [strconv] and the [fmt] verbs used by the program *)

Module GoNum.

(** [float64] *)
Definition float64 : Type := spec_float.

Definition prec : Z := 53.
Definition emax : Z := 1024.

(** [a == b] on [float64]: IEEE comparison, so [NaN] differs from itself
    and the two zeros are equal. *)
Definition float64_eq (a b : float64) : bool := SFeqb a b.

(** The [%d] verb. *)
Definition fmt_d (n : Z) : string := NilZero.string_of_int (Z.to_int n).

(** [m * 2^e * 10] rounded to the nearest integer, ties to even: the
    digits [%.1f] prints for the magnitude [m * 2^e]. *)
Definition tenths (m : positive) (e : Z) : Z :=
  if 0 <=? e then Zpos m * 2 ^ e * 10
  else
    let den := 2 ^ (- e) in
    let num := Zpos m * 10 in
    let q := num / den in
    let r := num mod den in
    match 2 * r ?= den with
    | Lt => q
    | Gt => q + 1
    | Eq => if Z.even q then q else q + 1
    end.

Definition fmt_sign (s : bool) : string := if s then "-" else "".

(** The [%.1f] verb: exact decimal expansion rounded to one fractional
    digit (half to even); the sign of a negative zero is printed. *)
Definition fmt_f1 (x : float64) : string :=
  match x with
  | S754_nan => "NaN"
  | S754_infinity s => if s then "-Inf" else "+Inf"
  | S754_zero s => fmt_sign s ++ "0.0"
  | S754_finite s m e =>
      let n := tenths m e in
      fmt_sign s ++ fmt_d (n / 10) ++ "." ++ fmt_d (n mod 10)
  end.

(** Value of a string of decimal digits, most significant first. *)
Fixpoint digitsValue (acc : Z) (s : string) : Z :=
  match s with
  | EmptyString => acc
  | String c s' => digitsValue (10 * acc + (Z.of_nat (nat_of_ascii c) - 48)) s'
  end.

Definition maxInt : Z := 2 ^ 63 - 1.

(** [strconv.Atoi] on the inputs the program gives it, strings over
    [0-9]: [None] stands for a non-nil error (empty input, a byte that is
    not a digit, or a value that does not fit a 64-bit [int]). *)
Definition Atoi (s : string) : option Z :=
  if isEmpty s || negb (all isDigit s) then None
  else
    let v := digitsValue 0 s in
    if v <=? maxInt then Some v else None.

(** The float64 nearest to [n / 10^k] (ties to even), for [n >= 0]; an
    infinity when the quotient is beyond the largest float64. *)
Definition nearestDecimal (n : Z) (k : nat) : float64 :=
  match n with
  | Zpos p =>
      SFdiv prec emax (S754_finite false p 0)
        (S754_finite false (Z.to_pos (10 ^ Z.of_nat k)) 0)
  | _ => S754_zero false
  end.

(** [strconv.ParseFloat(s, 64)] on the inputs the program gives it,
    strings over [0-9.]: digits with at most one point and at least one
    digit denote the nearest float64; [None] stands for a non-nil error
    (a syntax error, or a range error when the result is infinite). *)
Definition ParseFloat (s : string) : option float64 :=
  let '(ip, rest) := span isDigit s in
  let fp_ok :=
    match rest with
    | EmptyString => Some EmptyString
    | String c fp => if isDot c && all isDigit fp then Some fp else None
    end in
  match fp_ok with
  | None => None
  | Some fp =>
      if isEmpty ip && isEmpty fp then None
      else
        match nearestDecimal (digitsValue 0 (ip ++ fp)) (String.length fp) with
        | S754_infinity _ => None
        | v => Some v
        end
  end.

End GoNum.
Import GoNum.

(** ** Regular expressions of the program

    The program uses four expressions.  [htmlTagRe] is handled by
    [stripHTMLTags] below.  The other three have the shape
    [literal (class+) literal]: a fixed label, one capture group that is a
    non-empty greedy run over a byte class, and a fixed closing literal
    whose first byte is outside the class.  For such an expression a match
    starting at a given position, if any, captures the whole run of class
    bytes after the label (a shorter run would be followed by a class byte,
    not by the closing literal), and the leftmost-first search of Go's
    [regexp] returns the match at the least starting position.  All
    literals begin with a UTF-8 lead byte or an ASCII byte, so matching on
    bytes and on runes agree. *)

Module Regexp.

Record Pattern : Type := mkPattern {
  label : string;
  class : ascii -> bool;
  closing : string
}.

(** A match anchored at the start of [s]: the capture group. *)
Definition matchHere (p : Pattern) (s : string) : option string :=
  if HasPrefix s (label p) then
    let '(cap, rest) := span (class p) (drop (String.length (label p)) s) in
    if negb (isEmpty cap) && HasPrefix rest (closing p) then Some cap
    else None
  else None.

(** [regexp.MustCompile(p).FindStringSubmatch(text)]: [nil] when there is
    no match, else the matched text followed by the capture group. *)
Fixpoint FindStringSubmatch (p : Pattern) (text : string) : list string :=
  match matchHere p text with
  | Some cap => [label p ++ cap ++ closing p; cap]
  | None =>
      match text with
      | EmptyString => []
      | String _ text' => FindStringSubmatch p text'
      end
  end.

End Regexp.
Import Regexp.

(** ** Data model *)

Record SwitchBotDevice : Type := mkDevice {
  DeviceID : string;
  DeviceType : string;
  DeviceName : string
}.

Record SwitchBotDeviceListBody : Type := mkDeviceListBody {
  DeviceList : list SwitchBotDevice
}.

Record SwitchBotDeviceStatus : Type := mkStatus {
  Battery : option Z;
  Temperature : option float64;
  Humidity : option float64;
  CO2 : option Z
}.

Record SwitchBotResponse (T : Type) : Type := mkResponse {
  StatusCode : Z;
  Message : string;
  Body : T
}.
Arguments mkResponse {T} _ _ _.
Arguments StatusCode {T} _.
Arguments Message {T} _.
Arguments Body {T} _.

Record MastodonPost : Type := mkPost {
  Content : string
}.

(** Error values.  [Wrap ctx e] is [fmt.Errorf(ctx + ": %w", e)];
    [External] is an error produced outside the program (the HTTP client,
    the JSON decoder, the file system, the AWS SDK). *)
Inductive error : Type :=
| External (what : string)
| Wrap (context : string) (cause : error)
| UnmarshalFailed (cause : error) (responseBody : string)
| MaxRetriesReached (message : string)
| UnexpectedStatusCode (code : Z) (message : string)
| FellThrough
| FeedGetFailed (url body : string)
| MastodonAPIError (body : string).

(** The string literals of [main.go], byte for byte. *)
Module Lit.
Definition tempLabel : string := "Ê∏©Â∫¶: ".
Definition tempUnit : string := "Â∫¶".
Definition humLabel : string := "ÊπøÂ∫¶: ".
Definition humUnit : string := "%".
Definition co2Label : string := "CO2: ".
Definition co2Unit : string := "ppm".
Definition iconAlert : string := "üî•".
Definition iconCaution : string := "üí®".
Definition iconNormal : string := "üå≥".
Definition emojiWarning : string := "‚ö†Ô∏è".
Definition emojiBattery : string := "üîã".
End Lit.

Definition targetDeviceTypes : list string := ["Meter"; "MeterPro(CO2)"].

Definition isTargetDevice (deviceType : string) : bool :=
  existsb (String.eqb deviceType) targetDeviceTypes.

(** ** History Parser *)

Definition makeDeviceHeader (deviceName : string) : string :=
  "# " ++ deviceName.

(** After a ["<"]: the text following the first [">"], provided no line
    feed comes before it ([.] does not match a line feed). *)
Fixpoint closeTag (s : string) : option string :=
  match s with
  | EmptyString => None
  | String c s' =>
      if Ascii.eqb c ">" then Some s'
      else if Ascii.eqb c (ascii_of_nat 10) then None
      else closeTag s'
  end.

(** [htmlTagRe.ReplaceAllString(input, "")] for [htmlTagRe = `<.*?>`]:
    scanning from the left, every ["<"] that is followed on its line by a
    [">"] is deleted together with everything up to the first such [">"].
    [fuel] bounds the number of scanning steps. *)
Fixpoint stripTags (fuel : nat) (s : string) : string :=
  match fuel with
  | O => s
  | S fuel' =>
      match s with
      | EmptyString => EmptyString
      | String c s' =>
          if Ascii.eqb c "<" then
            match closeTag s' with
            | Some rest => stripTags fuel' rest
            | None => String c (stripTags fuel' s')
            end
          else String c (stripTags fuel' s')
      end
  end.

Definition stripHTMLTags (input : string) : string :=
  stripTags (String.length input) input.

(** The loop body of [extractRecentMessagesForDevice]. *)
Definition deviceSection (deviceName : string) (post : MastodonPost)
  : list string :=
  let text := stripHTMLTags (Content post) in
  let idx := Index text (makeDeviceHeader deviceName) in
  if negb (idx =? -1) then [drop (Z.to_nat idx) text] else [].

Fixpoint collectSections (deviceName : string) (posts : list MastodonPost)
    (messages : list string) : list string :=
  match posts with
  | [] => messages
  | post :: posts' =>
      collectSections deviceName posts'
        (messages ++ deviceSection deviceName post)
  end.

(** Returns the messages and the error, which is always [nil]. *)
Definition extractRecentMessagesForDevice (deviceName : string)
    (posts : list MastodonPost) : list string * option error :=
  (collectSections deviceName posts [], None).

Definition tempPattern : Pattern := mkPattern Lit.tempLabel (fun c => isDigit c || isDot c) Lit.tempUnit.
Definition humPattern : Pattern := mkPattern Lit.humLabel (fun c => isDigit c || isDot c) Lit.humUnit.
Definition co2Pattern : Pattern := mkPattern Lit.co2Label isDigit Lit.co2Unit.

Definition extractFloatValue (text : string) (pattern : Pattern)
  : option float64 :=
  let matches := FindStringSubmatch pattern text in
  if (List.length matches <? 2)%nat then None
  else ParseFloat (nth 1 matches EmptyString).

Definition extractIntValue (text : string) (pattern : Pattern) : option Z :=
  let matches := FindStringSubmatch pattern text in
  if (List.length matches <? 2)%nat then None
  else Atoi (nth 1 matches EmptyString).

(** ** Duplicate Detector *)

(** Go's [comparable] constraint, with [==]. *)
Class Comparable (T : Type) : Type := { equal : T -> T -> bool }.

#[export] Instance Comparable_int : Comparable Z := {| equal := Z.eqb |}.
#[export] Instance Comparable_float64 : Comparable float64 :=
  {| equal := float64_eq |}.

Definition isNil {T : Type} (p : option T) : bool :=
  match p with None => true | Some _ => false end.

Definition ptrEquals {T : Type} `{Comparable T} (a b : option T) : bool :=
  match a, b with
  | Some x, Some y => equal x y
  | _, _ => isNil a && isNil b
  end.

Fixpoint isRepeated (current : SwitchBotDeviceStatus)
    (previousMessages : list string) : bool :=
  match previousMessages with
  | [] => true
  | msg :: rest =>
      let temp := extractFloatValue msg tempPattern in
      let hum := extractFloatValue msg humPattern in
      let co2 := extractIntValue msg co2Pattern in
      if negb (ptrEquals temp (Temperature current))
         || negb (ptrEquals hum (Humidity current))
         || negb (ptrEquals co2 (CO2 current))
      then false
      else isRepeated current rest
  end.

(** ** Message Composer *)

Definition batteryStatusEmoji (device : SwitchBotDevice)
    (posts : list MastodonPost) (status : SwitchBotDeviceStatus)
  : string * option error :=
  let '(previousMessages, err) :=
    extractRecentMessagesForDevice (DeviceName device) posts in
  match err with
  | Some e => ("", Some (Wrap "extractRecentMessagesForDevice failed" e))
  | None =>
      if isRepeated status previousMessages then (Lit.emojiWarning, None)
      else (Lit.emojiBattery, None)
  end.

Definition co2Icon (co2 : Z) : string :=
  if 1500 <=? co2 then Lit.iconAlert
  else if 1000 <=? co2 then Lit.iconCaution
  else Lit.iconNormal.

Definition temperatureLine (status : SwitchBotDeviceStatus) : string :=
  match Temperature status with
  | Some t => Lit.tempLabel ++ fmt_f1 t ++ Lit.tempUnit ++ nl
  | None => ""
  end.

Definition humidityLine (status : SwitchBotDeviceStatus) : string :=
  match Humidity status with
  | Some h => Lit.humLabel ++ fmt_f1 h ++ Lit.humUnit ++ nl
  | None => ""
  end.

Definition co2Line (status : SwitchBotDeviceStatus) : string :=
  match CO2 status with
  | Some c => Lit.co2Label ++ fmt_d c ++ Lit.co2Unit ++ " " ++ co2Icon c ++ nl
  | None => ""
  end.

(** The part of [generateStatusMessage] that follows the status fetch and
    the metrics call: what is written to the [strings.Builder], or the
    error of the emoji lookup. *)
Definition composeMessage (device : SwitchBotDevice)
    (posts : list MastodonPost) (status : SwitchBotDeviceStatus)
  : error + string :=
  let b := makeDeviceHeader (DeviceName device) in
  let suffixed :=
    match Battery status with
    | Some battery =>
        match batteryStatusEmoji device posts status with
        | (_, Some err) => inl err
        | (emoji, None) =>
            inr (b ++ " (" ++ emoji ++ fmt_d battery ++ "%)")
        end
    | None => inr b
    end in
  match suffixed with
  | inl err => inl err
  | inr b =>
      inr (b ++ nl ++ temperatureLine status ++ humidityLine status
             ++ co2Line status)
  end.

(** ** Effects

    A run leaves a trace of the calls it makes to the outside; what the
    outside answers is fixed by an environment.  Log lines are not
    traced. *)

Inductive Event : Type :=
| EvVendorGET (url : string)
| EvSleep (seconds : Z)
| EvFeedGET (endpoint : string)
| EvPutMetricData (deviceID : string) (metrics : list (string * float64 * string))
| EvPublish (status : string).

Definition Trace : Type := list Event.

(** What [http.DefaultClient.Do] followed by [io.ReadAll] yields. *)
Inductive HttpResult : Type :=
| DoFailed (e : error)
| ReadFailed (e : error)
| BodyRead (bodyBytes : string).

(** [json.Unmarshal(bodyBytes, out)] at one body type: the decoder writes
    into the value [out] already holds, so its result may depend on it. *)
Record Decoder (T : Type) : Type := mkDecoder {
  zero : T;
  unmarshal : string -> SwitchBotResponse T -> error + SwitchBotResponse T
}.
Arguments zero {T} _.
Arguments unmarshal {T} _ _ _.

Record Env : Type := mkEnv {
  (** outcome of [loadConfig] *)
  loadConfigError : option error;
  (** [batteryCheckPostCount] once the configuration is loaded *)
  batteryCheckPostCount : Z;
  (** the header set of [generateSwitchBotHeaders] *)
  signedHeaders : list (string * string);
  (** [http.NewRequest("GET", url, nil)] *)
  newRequestError : string -> option error;
  (** answer to a vendor GET, by URL and by the number of vendor GETs
      sent before it *)
  vendorDo : string -> list (string * string) -> nat -> HttpResult;
  decodeDeviceList : Decoder SwitchBotDeviceListBody;
  decodeStatus : Decoder SwitchBotDeviceStatus;
  (** [httpGet] of the feed, decoded *)
  verifyCredentials : error + string;
  accountStatuses : string -> error + list MastodonPost;
  (** [awsconfig.LoadDefaultConfig] and [cw.PutMetricData] *)
  awsConfigError : option error;
  putMetricDataError : string -> option error;
  (** outcome of the POST of [postToMastodon] *)
  publishError : string -> option error
}.

Definition M (A : Type) : Type := Trace -> A * Trace.

Definition ret {A : Type} (a : A) : M A := fun w => (a, w).

Definition bind {A B : Type} (m : M A) (k : A -> M B) : M B :=
  fun w => let '(a, w') := m w in k a w'.

Definition emit (e : Event) : M unit := fun w => (tt, (w ++ [e])%list).

Definition trace : M Trace := fun w => (w, w).

Declare Scope run_scope.
Delimit Scope run_scope with run.
Notation "x <- m ;; k" := (bind m (fun x => k))
  (at level 61, m at next level, right associativity) : run_scope.
Notation "m ;;; k" := (bind m (fun _ => k))
  (at level 61, right associativity) : run_scope.
Local Open Scope run_scope.

Definition isVendorGET (e : Event) : bool :=
  match e with EvVendorGET _ => true | _ => false end.

(** Number of vendor GETs in a trace. *)
Definition attempts (w : Trace) : nat := List.length (filter isVendorGET w).

Definition sleeps (w : Trace) : list Z :=
  flat_map (fun e => match e with EvSleep s => [s] | _ => [] end) w.

Definition published (w : Trace) : list string :=
  flat_map (fun e => match e with EvPublish s => [s] | _ => [] end) w.

Section Pipeline.

Variable env : Env.

(** ** Backoff Fetcher *)

Definition clientDo (url : string) (headers : list (string * string))
  : M HttpResult :=
  w <- trace ;;
  emit (EvVendorGET url) ;;;
  ret (vendorDo env url headers (attempts w)).

(** The loop of [requestWithBackoff]: [remaining] iterations are left and
    the loop variable is [attempt]. *)
Fixpoint backoffLoop {T : Type} (dec : Decoder T) (url : string)
    (headers : list (string * string)) (remaining : nat) (attempt : Z)
    (out : SwitchBotResponse T) : M (error + SwitchBotResponse T) :=
  match remaining with
  | O => ret (inl FellThrough)
  | S remaining' =>
      match newRequestError env url with
      | Some err => ret (inl (Wrap "request creation failed" err))
      | None =>
          res <- clientDo url headers ;;
          match res with
          | DoFailed err => ret (inl (Wrap "HTTP request failed" err))
          | ReadFailed err => ret (inl (Wrap "reading response failed" err))
          | BodyRead bodyBytes =>
              match unmarshal dec bodyBytes out with
              | inl err => ret (inl (UnmarshalFailed err bodyBytes))
              | inr out' =>
                  if StatusCode out' =? 100 then ret (inr out')
                  else if StatusCode out' =? 190 then
                    if attempt <? 4 then
                      let wait := Z.shiftl 1 attempt in
                      emit (EvSleep wait) ;;;
                      backoffLoop dec url headers remaining' (attempt + 1) out'
                    else
                      ret (inl (MaxRetriesReached (Message out')))
                  else
                    ret (inl (UnexpectedStatusCode (StatusCode out')
                                (Message out')))
              end
          end
      end
  end.

(** On success the result is what [out] holds on return. *)
Definition requestWithBackoff {T : Type} (dec : Decoder T) (url : string)
    (headers : list (string * string)) (out : SwitchBotResponse T)
  : M (error + SwitchBotResponse T) :=
  backoffLoop dec url headers 5 0 out.

Definition generateSwitchBotHeaders : list (string * string) :=
  signedHeaders env.

Definition zeroResponse {T : Type} (dec : Decoder T) : SwitchBotResponse T :=
  mkResponse 0 "" (zero dec).

Definition fetchDevices : M (error + list SwitchBotDevice) :=
  let url := "https://api.switch-bot.com/v1.1/devices" in
  r <- requestWithBackoff (decodeDeviceList env) url
         generateSwitchBotHeaders (zeroResponse (decodeDeviceList env)) ;;
  match r with
  | inl err => ret (inl err)
  | inr resp => ret (inr (DeviceList (Body resp)))
  end.

Definition fetchDeviceStatus (device : SwitchBotDevice)
  : M (error + SwitchBotDeviceStatus) :=
  let url := "https://api.switch-bot.com/v1.1/devices/"
             ++ DeviceID device ++ "/status" in
  r <- requestWithBackoff (decodeStatus env) url
         generateSwitchBotHeaders (zeroResponse (decodeStatus env)) ;;
  match r with
  | inl err => ret (inl err)
  | inr resp => ret (inr (Body resp))
  end.

(** ** Collaborators *)

Definition fetchRecentMastodonPosts : M (error + list MastodonPost) :=
  emit (EvFeedGET "/accounts/verify_credentials") ;;;
  match verifyCredentials env with
  | inl err => ret (inl err)
  | inr id =>
      let endpoint := "/accounts/" ++ id ++ "/statuses?limit="
                      ++ fmt_d (batteryCheckPostCount env) in
      emit (EvFeedGET endpoint) ;;;
      match accountStatuses env endpoint with
      | inl err => ret (inl err)
      | inr posts => ret (inr posts)
      end
  end.

(** [float64(n)] for an [int] *)
Definition float64_of_int (n : Z) : float64 :=
  binary_normalize prec emax n 0 false.

Definition metricData (status : SwitchBotDeviceStatus)
  : list (string * float64 * string) :=
  (match Temperature status with
   | Some t => [("Temperature", t, "Count")] | None => [] end
   ++ match Humidity status with
      | Some h => [("Humidity", h, "Percent")] | None => [] end
   ++ match CO2 status with
      | Some c => [("CO2", float64_of_int c, "Count")] | None => [] end)%list.

Definition PutMetric (device : SwitchBotDevice)
    (status : SwitchBotDeviceStatus) : M (option error) :=
  match awsConfigError env with
  | Some err => ret (Some (Wrap "failed to load AWS config" err))
  | None =>
      let data := metricData status in
      if (List.length data =? 0)%nat then ret None
      else
        emit (EvPutMetricData (DeviceID device) data) ;;;
        match putMetricDataError env (DeviceID device) with
        | Some err => ret (Some (Wrap "failed to put metric data" err))
        | None => ret None
        end
  end.

Definition postToMastodon (message : string) : M (option error) :=
  emit (EvPublish message) ;;;
  ret (publishError env message).

(** ** Message Composer and Pipeline Orchestrator *)

Definition generateStatusMessage (device : SwitchBotDevice)
    (posts : list MastodonPost) : M (error + string) :=
  r <- fetchDeviceStatus device ;;
  match r with
  | inl err => ret (inl err)
  | inr status =>
      _ <- PutMetric device status ;;
      ret (composeMessage device posts status)
  end.

(** The device loop of [handler]. *)
Fixpoint collectMessages (devices : list SwitchBotDevice)
    (posts : list MastodonPost) (messages : list string)
  : M (list string) :=
  match devices with
  | [] => ret messages
  | device :: devices' =>
      if negb (isTargetDevice (DeviceType device)) then
        collectMessages devices' posts messages
      else
        r <- generateStatusMessage device posts ;;
        match r with
        | inl _ => collectMessages devices' posts messages
        | inr message => collectMessages devices' posts (messages ++ [message])
        end
  end.

Definition handler : M (option error) :=
  match loadConfigError env with
  | Some err => ret (Some (Wrap "loadConfig error" err))
  | None =>
      ds <- fetchDevices ;;
      match ds with
      | inl err => ret (Some (Wrap "fetchDevices error" err))
      | inr devices =>
          ps <- fetchRecentMastodonPosts ;;
          match ps with
          | inl err => ret (Some (Wrap "fetchRecentMastodonPosts error" err))
          | inr posts =>
              messages <- collectMessages devices posts [] ;;
              if (0 <? List.length messages)%nat then
                postToMastodon (Join messages nl)
              else ret None
          end
      end
  end.

End Pipeline.

(** ** Notions used to state the properties *)

(** Field-wise equality as the specification words it: two absent values
    are equal, an absent and a present value are not, two present values
    are equal when [same] relates them. *)
Inductive fieldEqual {T : Type} (same : T -> T -> Prop)
  : option T -> option T -> Prop :=
| fieldEqual_absent : fieldEqual same None None
| fieldEqual_present : forall x y, same x y -> fieldEqual same (Some x) (Some y).

(** [m1 * 2^e1 = m2 * 2^e2], both sides scaled to integers. *)
Definition sameMagnitude (m1 : positive) (e1 : Z) (m2 : positive) (e2 : Z)
  : Prop :=
  Zpos m1 * 2 ^ (e1 - Z.min e1 e2) = Zpos m2 * 2 ^ (e2 - Z.min e1 e2).

(** Two float64 values that are numbers and denote the same number. *)
Definition numericallyIdentical (x y : float64) : Prop :=
  match x, y with
  | S754_zero _, S754_zero _ => True
  | S754_finite s1 m1 e1, S754_finite s2 m2 e2 =>
      s1 = s2 /\ sameMagnitude m1 e1 m2 e2
  | _, _ => False
  end.

(** A zero or a finite float64 in canonical form. *)
Definition isNumber (x : float64) : bool :=
  match x with
  | S754_zero _ => true
  | S754_finite _ m e => bounded prec emax m e
  | _ => false
  end.

(** The three fields a history entry is parsed into. *)
Definition parsedTemperature (msg : string) : option float64 :=
  extractFloatValue msg tempPattern.
Definition parsedHumidity (msg : string) : option float64 :=
  extractFloatValue msg humPattern.
Definition parsedCO2 (msg : string) : option Z :=
  extractIntValue msg co2Pattern.

(** An entry whose parsed fields all equal those of the reading under
    [==]. *)
Definition entryMatches (current : SwitchBotDeviceStatus) (msg : string)
  : Prop :=
  fieldEqual (fun x y => equal x y = true) (parsedTemperature msg) (Temperature current)
  /\ fieldEqual (fun x y => equal x y = true) (parsedHumidity msg) (Humidity current)
  /\ fieldEqual (fun x y => equal x y = true) (parsedCO2 msg) (CO2 current).

(** [current'] is [current] with one of the compared fields changed to a
    value that [==] tells apart from the old one. *)
Inductive changedReading (current : SwitchBotDeviceStatus)
  : SwitchBotDeviceStatus -> Prop :=
| changed_temperature : forall t,
    ptrEquals (Temperature current) t = false ->
    changedReading current
      (mkStatus (Battery current) t (Humidity current) (CO2 current))
| changed_humidity : forall h,
    ptrEquals (Humidity current) h = false ->
    changedReading current
      (mkStatus (Battery current) (Temperature current) h (CO2 current))
| changed_co2 : forall c,
    ptrEquals (CO2 current) c = false ->
    changedReading current
      (mkStatus (Battery current) (Temperature current) (Humidity current) c).

(** [msg'] parses like [msg] except for one field, which [==] tells apart
    from the old one. *)
Definition changedEntry (msg msg' : string) : Prop :=
  (ptrEquals (parsedTemperature msg) (parsedTemperature msg') = false
   /\ parsedHumidity msg' = parsedHumidity msg
   /\ parsedCO2 msg' = parsedCO2 msg)
  \/ (parsedTemperature msg' = parsedTemperature msg
      /\ ptrEquals (parsedHumidity msg) (parsedHumidity msg') = false
      /\ parsedCO2 msg' = parsedCO2 msg)
  \/ (parsedTemperature msg' = parsedTemperature msg
      /\ parsedHumidity msg' = parsedHumidity msg
      /\ ptrEquals (parsedCO2 msg) (parsedCO2 msg') = false).

(** [text] contains [sub] at byte offset [i]. *)
Definition occursAt (sub text : string) (i : nat) : Prop :=
  exists before after,
    text = before ++ sub ++ after /\ String.length before = i.

(** The history entry a tag-stripped post contributes for a header: none
    when the header does not occur, else the text from the first
    occurrence to the end of the post. *)
Inductive entryOf (header text : string) : list string -> Prop :=
| entryOf_none :
    (forall i, ~ occursAt header text i) -> entryOf header text []
| entryOf_suffix : forall before after,
    text = before ++ header ++ after ->
    (forall i, occursAt header text i -> (String.length before <= i)%nat) ->
    entryOf header text [header ++ after].

Fixpoint countByte (c : ascii) (s : string) : nat :=
  match s with
  | EmptyString => O
  | String c' s' => ((if Ascii.eqb c' c then 1 else 0) + countByte c s')%nat
  end.

(** Number of line feeds in a text. *)
Definition lineCount (s : string) : nat := countByte (ascii_of_nat 10) s.

Definition presentFields (status : SwitchBotDeviceStatus) : nat :=
  ((if isNil (Temperature status) then 0 else 1)
   + (if isNil (Humidity status) then 0 else 1)
   + (if isNil (CO2 status) then 0 else 1))%nat.

(** The battery suffix of the header as the specification words it: the
    percentage in parentheses behind the warning symbol when the detector
    flags the reading as repeated and behind the battery symbol otherwise;
    nothing without a battery level. *)
Definition batterySuffix (device : SwitchBotDevice) (posts : list MastodonPost)
    (status : SwitchBotDeviceStatus) : string :=
  match Battery status with
  | Some percent =>
      " ("
      ++ (if isRepeated status
               (fst (extractRecentMessagesForDevice (DeviceName device) posts))
          then Lit.emojiWarning else Lit.emojiBattery)
      ++ fmt_d percent ++ "%)"
  | None => ""
  end.

Definition headerLine (device : SwitchBotDevice) (posts : list MastodonPost)
    (status : SwitchBotDeviceStatus) : string :=
  makeDeviceHeader (DeviceName device) ++ batterySuffix device posts status
  ++ nl.

(** The vendor answers the requests numbered [k], [k+1], ... with bodies
    that decode, one after the other into the same response value, to
    envelopes carrying the status codes [codes]; [final] is the response
    value after the last of them. *)
Inductive Answers {T : Type} (env : Env) (dec : Decoder T) (url : string)
    (headers : list (string * string))
  : nat -> SwitchBotResponse T -> list Z -> SwitchBotResponse T -> Prop :=
| Answers_nil : forall k out, Answers env dec url headers k out [] out
| Answers_cons : forall k out bodyBytes out' code codes final,
    vendorDo env url headers k = BodyRead bodyBytes ->
    unmarshal dec bodyBytes out = inr out' ->
    StatusCode out' = code ->
    Answers env dec url headers (S k) out' codes final ->
    Answers env dec url headers k out (code :: codes) final.

(** The trace of a fetch that is told to retry [n] times: a request and a
    wait of [2^attempt] seconds for each of the attempts [0 .. n-1], then
    one more request. *)
Definition backoffTrace (url : string) (n : nat) : Trace :=
  (flat_map (fun attempt => [EvVendorGET url; EvSleep (2 ^ Z.of_nat attempt)])
     (seq 0 n) ++ [EvVendorGET url])%list.

(** The messages a run produces: those of the device loop, none when the
    run stops before it. *)
Definition messagesProduced (env : Env) (w : Trace) : list string :=
  match loadConfigError env with
  | Some _ => []
  | None =>
      match fetchDevices env w with
      | (inl _, _) => []
      | (inr devices, w1) =>
          match fetchRecentMastodonPosts env w1 with
          | (inl _, _) => []
          | (inr posts, w2) => fst (collectMessages env devices posts [] w2)
          end
      end
  end.

(** The run gets as far as the device loop. *)
Definition reachesDeviceLoop (env : Env) (w : Trace) : Prop :=
  loadConfigError env = None
  /\ (exists devices w1, fetchDevices env w = (inr devices, w1)
      /\ exists posts w2, fetchRecentMastodonPosts env w1 = (inr posts, w2)).

(** The device directory a run obtains. *)
Definition directoryOf (env : Env) (w : Trace) : list SwitchBotDevice :=
  match fetchDevices env w with
  | (inr devices, _) => devices
  | (inl _, _) => []
  end.

(** ** Concrete readings, posts and environments *)

Module Scenario.

(** The float64 written [n / 10], negated when [neg]. *)
Definition tenth (neg : bool) (n : Z) : float64 :=
  if neg then SFopp (nearestDecimal n 1) else nearestDecimal n 1.

Definition livingRoom : SwitchBotDevice := mkDevice "A" "Meter" "Living Room".
Definition study : SwitchBotDevice := mkDevice "B" "MeterPro(CO2)" "Study".
Definition hub : SwitchBotDevice := mkDevice "H" "Hub Mini" "Hub".

Definition fullReading : SwitchBotDeviceStatus :=
  mkStatus (Some 85) (Some (tenth false 235)) (Some (tenth false 452))
    (Some 600).

Definition meterReading : SwitchBotDeviceStatus :=
  mkStatus None (Some (tenth false 235)) (Some (tenth false 452)) None.

Definition frostReading : SwitchBotDeviceStatus :=
  mkStatus None (Some (tenth true 50)) (Some (tenth false 452)) None.

Definition noReading : SwitchBotDeviceStatus := mkStatus None None None None.

(** What [composeMessage] wrote, or the empty text on error. *)
Definition rendered (device : SwitchBotDevice) (posts : list MastodonPost)
    (status : SwitchBotDeviceStatus) : string :=
  match composeMessage device posts status with
  | inr m => m
  | inl _ => ""
  end.

(** A feed post holding one published report. *)
Definition postOf (message : string) : MastodonPost :=
  mkPost ("<p>" ++ message ++ "</p>").

(** A decoder for a toy wire format: the body is a word naming the
    envelope. *)
Definition wordDecoder {T : Type} (z payload : T) : Decoder T :=
  mkDecoder T z
    (fun bodyBytes out =>
       if String.eqb bodyBytes "busy" then
         inr (mkResponse 190 "rate limited" (Body out))
       else if String.eqb bodyBytes "ok" then
         inr (mkResponse 100 "success" payload)
       else if String.eqb bodyBytes "denied" then
         inr (mkResponse 250 "unauthorized" (Body out))
       else inl (External "invalid character")).

(** An environment whose vendor API answers the [k]-th request with the
    [k]-th element of [script], whatever the URL. *)
Definition scripted (script : list HttpResult)
    (devices : list SwitchBotDevice) (reading : SwitchBotDeviceStatus)
    (posts : list MastodonPost) : Env :=
  mkEnv None 7 [("Authorization", "token")] (fun _ => None)
    (fun _ _ k => nth k script (DoFailed (External "connection refused")))
    (wordDecoder (mkDeviceListBody []) (mkDeviceListBody devices))
    (wordDecoder noReading reading)
    (inr "42") (fun _ => inr posts)
    None (fun _ => None) (fun _ => None).

(** A report on a device whose name extends ["Room"]. *)
Definition room2Post : MastodonPost :=
  postOf (rendered (mkDevice "C" "Meter" "Room 2") [] meterReading).

Definition studyReading : SwitchBotDeviceStatus :=
  mkStatus (Some 78) (Some (tenth false 241)) (Some (tenth false 428))
    (Some 1250).

(** One combined report: the living room, then the study. *)
Definition combinedPost : MastodonPost :=
  postOf (Join [rendered livingRoom [] meterReading;
                rendered study [] studyReading] nl).

Definition busy : HttpResult := BodyRead "busy".

Definition busyThenOk : Env :=
  scripted [busy; busy; busy; busy; BodyRead "ok"] [] fullReading [].

Definition alwaysBusy : Env :=
  scripted [busy; busy; busy; busy; busy; busy] [] fullReading [].

Definition denied : Env := scripted [BodyRead "denied"] [] fullReading [].

Definition offline : Env := scripted [] [] fullReading [].

Definition truncated : Env :=
  scripted [ReadFailed (External "unexpected EOF")] [] fullReading [].

Definition garbled : Env := scripted [BodyRead "<html>"] [] fullReading [].

(** The directory lists only a hub. *)
Definition onlyHub : Env := scripted [BodyRead "ok"] [hub] fullReading [].

(** The directory lists one meter, whose status fetch succeeds. *)
Definition oneMeter : Env :=
  scripted [BodyRead "ok"; BodyRead "ok"] [livingRoom] meterReading [].

(** The directory lists two meters, whose status fetches succeed. *)
Definition twoMeters : Env :=
  scripted [BodyRead "ok"; BodyRead "ok"; BodyRead "ok"] [livingRoom; study]
    meterReading [].

(** As [oneMeter], with no AWS configuration to be found. *)
Definition metricsDown : Env :=
  mkEnv None 7 [] (fun _ => None)
    (fun _ _ _ => BodyRead "ok")
    (wordDecoder (mkDeviceListBody []) (mkDeviceListBody [livingRoom]))
    (wordDecoder noReading meterReading)
    (inr "42") (fun _ => inr [])
    (Some (External "no credentials")) (fun _ => None) (fun _ => None).

(** Every temperature [0.0, 0.1, ..., (k-1)/10] is parsed back from its
    own [%.1f] rendering to a value [==] to it. *)
Definition roundTripsBelow (k : nat) : bool :=
  forallb (fun i =>
             let x := tenth false (Z.of_nat i) in
             ptrEquals (ParseFloat (fmt_f1 x)) (Some x))
    (seq 0 k).

End Scenario.

(** ** Notions used to state further properties *)

(** No ["<"] of the text is followed on its line by a [">"]. *)
Fixpoint tagFree (s : string) : bool :=
  match s with
  | EmptyString => true
  | String c s' =>
      (if Ascii.eqb c "<" then isNil (closeTag s') else true) && tagFree s'
  end.

(** A float64 below zero: a negative finite value or minus infinity. *)
Definition belowZero (x : float64) : bool :=
  match x with
  | S754_finite true _ _ | S754_infinity true => true
  | _ => false
  end.

(** A float64 that is plus zero or a positive finite value. *)
Definition plainNonNegative (x : float64) : bool :=
  match x with
  | S754_zero false | S754_finite false _ _ => true
  | _ => false
  end.

(** [s] differs from [l] at a byte that both have. *)
Fixpoint mismatch (s l : string) : bool :=
  match s, l with
  | String x s', String y l' =>
      if Ascii.eqb y x then mismatch s' l' else true
  | _, _ => false
  end.

(** No occurrence of [l], and no beginning of one, starts inside [a]. *)
Fixpoint clearOf (l a : string) : bool :=
  match a with
  | EmptyString => true
  | String _ a' => mismatch a l && clearOf l a'
  end.

(** No label of the report starts inside the text. *)
Definition labelFree (s : string) : bool :=
  clearOf Lit.tempLabel s && clearOf Lit.humLabel s && clearOf Lit.co2Label s.

(** The float64 is parsed back from its own [%.1f] rendering. *)
Definition survivesRendering (x : float64) : bool :=
  ptrEquals (ParseFloat (fmt_f1 x)) (Some x).

(** The fields of the reading are such as the parser can recover: each
    present temperature and humidity survives its rendering, a present CO2
    value lies between 0 and the largest [int]. *)
Definition recoverable (status : SwitchBotDeviceStatus) : bool :=
  match Temperature status with Some t => survivesRendering t | None => true end
  && match Humidity status with Some h => survivesRendering h | None => true end
  && match CO2 status with
     | Some c => (0 <=? c) && (c <=? maxInt)
     | None => true
     end.

Definition signOrDigit (c : ascii) : bool := isDigit c || Ascii.eqb c "-".

(** The first byte of [l] is no digit, no minus sign and no point. *)
Definition startsOutside (l : string) : bool :=
  match l with
  | EmptyString => false
  | String y _ => negb (isDigit y || Ascii.eqb y "-" || isDot y)
  end.

(** The closing literal of the pattern begins with a byte outside the
    class of its capture group. *)
Definition closesOutside (p : Pattern) : bool :=
  match closing p with
  | EmptyString => false
  | String c _ => negb (class p c)
  end.

(** [current] with another battery level. *)
Definition withBattery (battery : option Z) (current : SwitchBotDeviceStatus)
  : SwitchBotDeviceStatus :=
  mkStatus battery (Temperature current) (Humidity current) (CO2 current).

(** Some compared field of the reading is below zero. *)
Definition hasFieldBelowZero (current : SwitchBotDeviceStatus) : bool :=
  match Temperature current with Some t => belowZero t | None => false end
  || match Humidity current with Some h => belowZero h | None => false end
  || match CO2 current with Some c => c <? 0 | None => false end.

(** The expression [label (class+) closing] matches [text] at byte offset
    [i] with capture group [cap]. *)
Definition matchesAt (p : Pattern) (text : string) (i : nat) (cap : string)
  : Prop :=
  exists before after,
    text = before ++ label p ++ cap ++ closing p ++ after
    /\ String.length before = i
    /\ isEmpty cap = false
    /\ all (class p) cap = true.

Definition directoryURL : string := "https://api.switch-bot.com/v1.1/devices".

Definition statusURL (device : SwitchBotDevice) : string :=
  "https://api.switch-bot.com/v1.1/devices/" ++ DeviceID device ++ "/status".

(** The URLs of the vendor requests of a trace, in order. *)
Definition vendorURLs (w : Trace) : list string :=
  flat_map (fun e => match e with EvVendorGET url => [url] | _ => [] end) w.

(** [l1] is [l2] with some elements left out. *)
Inductive Subsequence {A : Type} : list A -> list A -> Prop :=
| Subsequence_nil : Subsequence [] []
| Subsequence_skip : forall x l1 l2,
    Subsequence l1 l2 -> Subsequence l1 (x :: l2)
| Subsequence_keep : forall x l1 l2,
    Subsequence l1 l2 -> Subsequence (x :: l1) (x :: l2).

(** The endpoints of the feed requests of a trace, in order. *)
Definition feedRequests (w : Trace) : list string :=
  flat_map (fun e => match e with EvFeedGET endpoint => [endpoint] | _ => [] end) w.

(** The listing endpoint of [fetchRecentMastodonPosts]. *)
Definition statusesEndpoint (id : string) (limit : Z) : string :=
  "/accounts/" ++ id ++ "/statuses?limit=" ++ fmt_d limit.

(** ** Configuration loading *)

Module Startup.

Record Config : Type := mkConfig {
  SwitchBotToken : string;
  SwitchBotSecret : string;
  MastodonURL : string;
  MastodonToken : string;
  BatteryCheckPostCount : Z
}.

(** The package-level variables [batteryCheckPostCount] and [config]. *)
Record Globals : Type := mkGlobals {
  postCount : Z;
  config : Config
}.

(** Their values at program start. *)
Definition initial : Globals := mkGlobals 7 (mkConfig "" "" "" "" 0).

(** What the process finds around it: [os.Getenv] (the empty string for
    an unset variable), the outcome of opening ["config.json"], and
    [json.NewDecoder(file).Decode(&config)], which writes into the value
    [config] already holds. *)
Record Process : Type := mkProcess {
  Getenv : string -> string;
  openConfigFile : error + string;
  decodeConfig : string -> Config -> option error * Config
}.

Definition minInt : Z := - 2 ^ 63.

(** [strconv.Atoi] on any input: an optional sign, then one or more
    decimal digits, denoting a value that fits a 64-bit [int]; [None]
    stands for a non-nil error. *)
Definition Atoi (s : string) : option Z :=
  let '(negative, digits) :=
    match s with
    | String c rest =>
        if Ascii.eqb c "-" then (true, rest)
        else if Ascii.eqb c "+" then (false, rest)
        else (false, s)
    | EmptyString => (false, s)
    end in
  if isEmpty digits || negb (all isDigit digits) then None
  else
    let v := digitsValue 0 digits in
    let n := if negative then - v else v in
    if (minInt <=? n) && (n <=? maxInt) then Some n else None.

Definition isLambda (p : Process) : bool :=
  negb (String.eqb (Getenv p "AWS_LAMBDA_FUNCTION_NAME") "").

Definition loadConfig (p : Process) (g : Globals) : option error * Globals :=
  if isLambda p then
    let envPostCount := Getenv p "BATTERY_CHECK_POST_COUNT" in
    let batteryCheckPostCount :=
      if negb (String.eqb envPostCount "") then
        match Atoi envPostCount with
        | Some count => if 0 <? count then count else postCount g
        | None => postCount g
        end
      else postCount g in
    (None,
     mkGlobals batteryCheckPostCount
       (mkConfig (Getenv p "SWITCHBOT_API_TOKEN")
          (Getenv p "SWITCHBOT_API_SECRET")
          (Getenv p "MASTODON_API_URL")
          (Getenv p "MASTODON_ACCESS_TOKEN")
          batteryCheckPostCount))
  else
    match openConfigFile p with
    | inl err => (Some err, g)
    | inr file =>
        let '(err, decoded) := decodeConfig p file (config g) in
        (err, mkGlobals (postCount g) decoded)
    end.

(** A managed-function process whose environment sets the post count to
    [count]. *)
Definition lambdaProcess (count : string) : Process :=
  mkProcess
    (fun name =>
       if String.eqb name "AWS_LAMBDA_FUNCTION_NAME" then "getCo2Level"
       else if String.eqb name "BATTERY_CHECK_POST_COUNT" then count
       else "")
    (inl (External "open config.json: no such file or directory"))
    (fun _ c => (None, c)).

(** A local process whose [config.json] asks for 20 posts. *)
Definition localProcess : Process :=
  mkProcess (fun _ => "")
    (inr "{BatteryCheckPostCount: 20}")
    (fun _ c =>
       (None,
        mkConfig (SwitchBotToken c) (SwitchBotSecret c) (MastodonURL c)
          (MastodonToken c) 20)).

End Startup.

(** * Properties *)

(** ** Byte strings *)

Lemma append_nil_r (s : string) : s ++ "" = s.
Proof. induction s as [|c s IH]; simpl; [reflexivity | now rewrite IH]. Qed.

Lemma append_assoc (a b c : string) : (a ++ b) ++ c = a ++ b ++ c.
Proof. induction a as [|x a IH]; simpl; [reflexivity | now rewrite IH]. Qed.

Lemma length_append (a b : string) :
  String.length (a ++ b) = (String.length a + String.length b)%nat.
Proof. induction a as [|x a IH]; simpl; [reflexivity | now rewrite IH]. Qed.

Lemma HasPrefix_iff (s p : string) :
  HasPrefix s p = true <-> exists rest, s = p ++ rest.
Proof.
  revert s. induction p as [|c p IH]; intros s; simpl.
  - split; [intros _; now exists s | reflexivity].
  - destruct s as [|d s].
    + split; [discriminate | intros [r Hr]; discriminate].
    + rewrite andb_true_iff, Ascii.eqb_eq, IH. split.
      * intros [-> [r ->]]. now exists r.
      * intros [r Hr]. injection Hr as -> ->. split; [reflexivity | now exists r].
Qed.

Lemma drop_append (a b : string) : drop (String.length a) (a ++ b) = b.
Proof. induction a as [|x a IH]; simpl; [reflexivity | exact IH]. Qed.

Lemma occursAt_zero (sub text : string) :
  occursAt sub text 0 <-> HasPrefix text sub = true.
Proof.
  rewrite HasPrefix_iff. unfold occursAt. split.
  - intros (b & a & -> & Hl). destruct b; [now exists a | discriminate].
  - intros [r ->]. now exists "", r.
Qed.

Lemma occursAt_succ (sub : string) (c : ascii) (text : string) (i : nat) :
  occursAt sub (String c text) (S i) <-> occursAt sub text i.
Proof.
  unfold occursAt. split.
  - intros (b & a & He & Hl). destruct b as [|x b]; [discriminate|].
    simpl in He, Hl. injection He as _ He. exists b, a. split; [exact He | lia].
  - intros (b & a & -> & Hl). exists (String c b), a. simpl. split; [reflexivity | lia].
Qed.

Lemma occursAt_empty (sub : string) (i : nat) :
  occursAt sub "" i -> i = O.
Proof.
  intros (b & a & He & Hl). destruct b; [now simpl in Hl | discriminate].
Qed.

(** [firstIndex] finds the least offset of an occurrence. *)
Lemma firstIndex_Some (s sub : string) (i : nat) :
  firstIndex s sub = Some i ->
  occursAt sub s i /\ forall j, occursAt sub s j -> (i <= j)%nat.
Proof.
  revert i. induction s as [|c s IH]; intros i; simpl.
  - destruct (HasPrefix "" sub) eqn:Hp; [|discriminate].
    intros [= <-]. split; [now apply occursAt_zero | lia].
  - destruct (HasPrefix (String c s) sub) eqn:Hp.
    + intros [= <-]. split; [now apply occursAt_zero | lia].
    + destruct (firstIndex s sub) as [k|] eqn:Hk; [|discriminate].
      simpl. intros [= <-]. destruct (IH k eq_refl) as [Ho Hmin]. split.
      * now apply occursAt_succ.
      * intros [|j] Hj.
        -- apply occursAt_zero in Hj. congruence.
        -- apply occursAt_succ in Hj. apply Hmin in Hj. lia.
Qed.

Lemma firstIndex_None (s sub : string) :
  firstIndex s sub = None -> forall i, ~ occursAt sub s i.
Proof.
  induction s as [|c s IH]; simpl.
  - destruct (HasPrefix "" sub) eqn:Hp; [discriminate|].
    intros _ i Hi. pose proof (occursAt_empty _ _ Hi) as ->.
    apply occursAt_zero in Hi. congruence.
  - destruct (HasPrefix (String c s) sub) eqn:Hp; [discriminate|].
    destruct (firstIndex s sub) as [k|] eqn:Hk; [discriminate|].
    intros _ [|i] Hi.
    + apply occursAt_zero in Hi. congruence.
    + apply occursAt_succ in Hi. now apply (IH eq_refl i).
Qed.

(** ** Comparison of fields *)

Lemma float64_eq_iff (x y : float64) :
  float64_eq x y = true <->
  match x, y with
  | S754_zero _, S754_zero _ => True
  | S754_infinity s1, S754_infinity s2 => s1 = s2
  | S754_finite s1 m1 e1, S754_finite s2 m2 e2 =>
      s1 = s2 /\ m1 = m2 /\ e1 = e2
  | _, _ => False
  end.
Proof.
  unfold float64_eq, SFeqb, SFcompare.
  destruct x as [s1|s1| |s1 m1 e1], y as [s2|s2| |s2 m2 e2];
    try (split; [discriminate | intros []]; fail);
    try (split; intros; [exact I | reflexivity]; fail);
    try (destruct s1; (split; [discriminate | intros []]); fail);
    try (destruct s2; (split; [discriminate | intros []]); fail).
  - destruct s1, s2; split; try discriminate; reflexivity.
  - fold (Pos.compare m1 m2).
    destruct s1, s2;
      try (split; [discriminate | intros (Hs & _); discriminate]).
    all: destruct (Z.compare_spec e1 e2) as [He|He|He];
      try (split; [discriminate | intros (_ & _ & He'); lia]).
    all: destruct (Pos.compare_spec m1 m2) as [Hm|Hm|Hm]; simpl;
      try (split; [discriminate | intros (_ & Hm' & _); lia]).
    all: split; [intros _; repeat split; assumption | reflexivity].
Qed.

Lemma float64_eq_sym (x y : float64) :
  float64_eq x y = true -> float64_eq y x = true.
Proof.
  rewrite !float64_eq_iff.
  destruct x, y; try tauto; try congruence.
  intros (-> & -> & ->). now repeat split.
Qed.

Lemma float64_eq_trans (x y z : float64) :
  float64_eq x y = true -> float64_eq y z = true -> float64_eq x z = true.
Proof.
  rewrite !float64_eq_iff.
  destruct x, y, z; try tauto; try congruence.
  intros (-> & -> & ->) (-> & -> & ->). now repeat split.
Qed.

(** A [comparable] type whose [==] is symmetric and transitive. *)
Class LawfulComparable (T : Type) `{Comparable T} : Prop := {
  equal_sym : forall x y : T, equal x y = true -> equal y x = true;
  equal_trans : forall x y z : T,
      equal x y = true -> equal y z = true -> equal x z = true
}.

#[export] Instance Lawful_int : LawfulComparable Z.
Proof.
  split; simpl; intros *; rewrite ?Z.eqb_eq; congruence.
Qed.

#[export] Instance Lawful_float64 : LawfulComparable float64.
Proof.
  split; simpl; [exact float64_eq_sym | exact float64_eq_trans].
Qed.

Section PtrEquals.

Context {T : Type} `{LawfulComparable T}.

Lemma ptrEquals_fieldEqual (a b : option T) :
  ptrEquals a b = true <-> fieldEqual (fun x y => equal x y = true) a b.
Proof.
  destruct a as [x|], b as [y|]; simpl; split; intros Hab;
    try discriminate; try (inversion Hab; fail); try constructor;
    try assumption; try reflexivity.
  now inversion Hab.
Qed.

Lemma ptrEquals_sym (a b : option T) :
  ptrEquals a b = true -> ptrEquals b a = true.
Proof.
  destruct a, b; simpl; try discriminate; try reflexivity.
  apply equal_sym.
Qed.

Lemma ptrEquals_trans (a b c : option T) :
  ptrEquals a b = true -> ptrEquals b c = true -> ptrEquals a c = true.
Proof.
  destruct a, b, c; simpl; try discriminate; try reflexivity.
  apply equal_trans.
Qed.

(** A value told apart from one of two equal values is told apart from
    the other. *)
Lemma ptrEquals_apart (a b c : option T) :
  ptrEquals a b = true -> ptrEquals b c = false -> ptrEquals a c = false.
Proof.
  intros Hab Hbc. destruct (ptrEquals a c) eqn:Hac; [|reflexivity].
  apply ptrEquals_sym in Hab.
  now rewrite (ptrEquals_trans _ _ _ Hab Hac) in Hbc.
Qed.

End PtrEquals.

(** ** Duplicate Detector *)

Lemma isRepeated_cons (current : SwitchBotDeviceStatus) (msg : string)
    (rest : list string) :
  isRepeated current (msg :: rest) =
  ptrEquals (parsedTemperature msg) (Temperature current)
  && ptrEquals (parsedHumidity msg) (Humidity current)
  && ptrEquals (parsedCO2 msg) (CO2 current)
  && isRepeated current rest.
Proof.
  unfold parsedTemperature, parsedHumidity, parsedCO2. simpl.
  destruct (ptrEquals (extractFloatValue msg tempPattern) (Temperature current));
    destruct (ptrEquals (extractFloatValue msg humPattern) (Humidity current));
    destruct (ptrEquals (extractIntValue msg co2Pattern) (CO2 current));
    reflexivity.
Qed.

Lemma entryMatches_iff (current : SwitchBotDeviceStatus) (msg : string) :
  entryMatches current msg <->
  ptrEquals (parsedTemperature msg) (Temperature current) = true
  /\ ptrEquals (parsedHumidity msg) (Humidity current) = true
  /\ ptrEquals (parsedCO2 msg) (CO2 current) = true.
Proof. unfold entryMatches. now rewrite !ptrEquals_fieldEqual. Qed.

Lemma isRepeated_Forall (current : SwitchBotDeviceStatus) (msgs : list string) :
  isRepeated current msgs = true <-> Forall (entryMatches current) msgs.
Proof.
  induction msgs as [|msg rest IH].
  - split; [constructor | reflexivity].
  - rewrite isRepeated_cons, !andb_true_iff, IH. split.
    + intros [[[Ht Hh] Hc] Hr]. constructor; [|exact Hr].
      now apply entryMatches_iff.
    + intros Hall. inversion Hall as [|? ? Hm Hr]; subst.
      apply entryMatches_iff in Hm. tauto.
Qed.

Lemma isRepeated_false_of_mismatch (current : SwitchBotDeviceStatus)
    (l1 : list string) (msg : string) (l2 : list string) :
  ~ entryMatches current msg -> isRepeated current (l1 ++ msg :: l2) = false.
Proof.
  intros Hno. destruct (isRepeated current (l1 ++ msg :: l2)) eqn:Hr; [|reflexivity].
  apply isRepeated_Forall in Hr. rewrite Forall_forall in Hr.
  exfalso. apply Hno, Hr, in_elt.
Qed.

(** Multiplying a mantissa by a power of two adds to its bit length. *)
Lemma digits2_pos_shift (m : positive) (d : Z) :
  0 <= d ->
  exists m', Zpos m' = Zpos m * 2 ^ d
             /\ Zpos (digits2_pos m') = Zpos (digits2_pos m) + d.
Proof.
  intros Hd. pattern d. apply natlike_ind; [| |exact Hd].
  - exists m. split; [now rewrite Z.pow_0_r, Z.mul_1_r | lia].
  - intros k Hk (m' & Hm & Hdg). exists (xO m'). split.
    + rewrite Z.pow_succ_r by exact Hk. rewrite Pos2Z.inj_xO, Hm. ring.
    + simpl digits2_pos. rewrite Pos2Z.inj_succ, Hdg. lia.
Qed.

Lemma canonical_unique_le (m1 m2 : positive) (e1 e2 : Z) :
  bounded prec emax m1 e1 = true -> bounded prec emax m2 e2 = true ->
  e1 <= e2 -> Zpos m1 = Zpos m2 * 2 ^ (e2 - e1) ->
  m1 = m2 /\ e1 = e2.
Proof.
  unfold bounded, canonical_mantissa. rewrite !andb_true_iff, !Z.eqb_eq.
  intros [Hc1 _] [Hc2 _] Hle Hm.
  destruct (digits2_pos_shift m2 (e2 - e1) ltac:(lia)) as (m' & Hm' & Hdg).
  assert (m' = m1) as -> by (apply Pos2Z.inj; congruence).
  assert (He : e1 = e2).
  { rewrite <- Hc1, <- Hc2. f_equal. lia. }
  subst e2. split; [|reflexivity].
  rewrite Z.sub_diag, Z.pow_0_r, Z.mul_1_r in Hm. now apply Pos2Z.inj.
Qed.

(** On float64 numbers in canonical form, [==] is identity of the denoted
    number. *)
Lemma float64_eq_numeric (x y : float64) :
  isNumber x = true -> isNumber y = true ->
  (float64_eq x y = true <-> numericallyIdentical x y).
Proof.
  rewrite float64_eq_iff.
  destruct x as [s1|s1| |s1 m1 e1], y as [s2|s2| |s2 m2 e2]; simpl;
    try discriminate; try tauto.
  intros Hb1 Hb2. unfold sameMagnitude. split.
  - intros (-> & -> & ->). split; reflexivity.
  - intros [-> Hm]. split; [reflexivity|].
    destruct (Z.le_ge_cases e1 e2) as [Hle|Hle].
    + rewrite Z.min_l, Z.sub_diag, Z.pow_0_r, Z.mul_1_r in Hm by exact Hle.
      exact (canonical_unique_le _ _ _ _ Hb1 Hb2 Hle Hm).
    + rewrite Z.min_r, Z.sub_diag, Z.pow_0_r, Z.mul_1_r in Hm by exact Hle.
      destruct (canonical_unique_le _ _ _ _ Hb2 Hb1 Hle (eq_sym Hm)).
      split; congruence.
Qed.

(** C1, as the code has it: with no matching history entry for the
    device, every reading is classified repeated, so a reading that carries
    a battery level gets the warning symbol. *)
Theorem empty_history_is_repeated :
  forall (current : SwitchBotDeviceStatus) (device : SwitchBotDevice)
         (posts : list MastodonPost),
    fst (extractRecentMessagesForDevice (DeviceName device) posts) = [] ->
    isRepeated current
      (fst (extractRecentMessagesForDevice (DeviceName device) posts)) = true
    /\ batteryStatusEmoji device posts current = (Lit.emojiWarning, None).
Proof.
  intros current device posts Hempty.
  unfold batteryStatusEmoji. unfold extractRecentMessagesForDevice in *.
  simpl in *. rewrite Hempty. split; reflexivity.
Qed.

Lemma empty_history_is_repeated_witness :
  fst (extractRecentMessagesForDevice (DeviceName Scenario.livingRoom) []) = []
  /\ isRepeated Scenario.fullReading
       (fst (extractRecentMessagesForDevice (DeviceName Scenario.livingRoom) []))
     = true
  /\ batteryStatusEmoji Scenario.livingRoom [] Scenario.fullReading
     = (Lit.emojiWarning, None).
Proof.
  split; [reflexivity|].
  apply (empty_history_is_repeated Scenario.fullReading Scenario.livingRoom []).
  reflexivity.
Defined.

(** C1 as stated fails: a reading with all four fields present and an
    empty set of matching entries is not classified "not repeated". *)
Lemma empty_history_not_repeated_refuted :
  Battery Scenario.fullReading <> None
  /\ Temperature Scenario.fullReading <> None
  /\ Humidity Scenario.fullReading <> None
  /\ CO2 Scenario.fullReading <> None
  /\ fst (extractRecentMessagesForDevice "Living Room" []) = []
  /\ isRepeated Scenario.fullReading
       (fst (extractRecentMessagesForDevice "Living Room" [])) <> false.
Proof.
  repeat split; discriminate.
Qed.

(** C2: over a non-empty list of matching entries the detector answers
    "repeated" exactly when every entry's parsed temperature, humidity and
    CO2 equal the reading's under field-wise equality ([==] on present
    values, which on float64 numbers is identity of the number denoted);
    from a repeated state, changing one compared field of the reading, or
    of one entry, makes the answer "not repeated". *)
Theorem repeated_iff_all_entries_equal :
  forall (current : SwitchBotDeviceStatus) (msgs : list string),
    msgs <> [] ->
    (isRepeated current msgs = true <-> Forall (entryMatches current) msgs)
    /\ (forall x y : float64,
           isNumber x = true -> isNumber y = true ->
           (fieldEqual (fun a b => equal a b = true) (Some x) (Some y)
            <-> numericallyIdentical x y))
    /\ (forall x y : Z,
           fieldEqual (fun a b => equal a b = true) (Some x) (Some y)
           <-> x = y)
    /\ (isRepeated current msgs = true ->
        forall current', changedReading current current' ->
                         isRepeated current' msgs = false)
    /\ (isRepeated current msgs = true ->
        forall l1 msg l2 msg',
          msgs = (l1 ++ msg :: l2)%list -> changedEntry msg msg' ->
          isRepeated current (l1 ++ msg' :: l2) = false).
Proof.
  intros current msgs Hne. split; [apply isRepeated_Forall|].
  split.
  { intros x y Hx Hy. rewrite <- ptrEquals_fieldEqual. simpl.
    now apply float64_eq_numeric. }
  split.
  { intros x y. rewrite <- ptrEquals_fieldEqual. simpl. apply Z.eqb_eq. }
  split.
  - intros Hrep current' Hch.
    destruct msgs as [|msg rest]; [congruence|].
    rewrite isRepeated_cons in Hrep. rewrite !andb_true_iff in Hrep.
    destruct Hrep as [[[Ht Hh] Hc] _].
    rewrite isRepeated_cons.
    destruct Hch as [t Hd|h Hd|c Hd]; simpl.
    + now rewrite (ptrEquals_apart _ _ _ Ht Hd).
    + rewrite (ptrEquals_apart _ _ _ Hh Hd). now rewrite andb_false_r.
    + rewrite (ptrEquals_apart _ _ _ Hc Hd). now rewrite andb_false_r.
  - intros Hrep l1 msg l2 msg' -> Hch.
    apply isRepeated_false_of_mismatch. intros Hm'.
    apply isRepeated_Forall in Hrep. rewrite Forall_forall in Hrep.
    pose proof (Hrep msg (in_elt _ _ _)) as Hm.
    apply entryMatches_iff in Hm. apply entryMatches_iff in Hm'.
    destruct Hm as (Ht & Hh & Hc). destruct Hm' as (Ht' & Hh' & Hc').
    destruct Hch as [(Hd & _ & _)|[(_ & Hd & _)|(_ & _ & Hd)]].
    + apply ptrEquals_sym in Ht'.
      now rewrite (ptrEquals_trans _ _ _ Ht Ht') in Hd.
    + apply ptrEquals_sym in Hh'.
      now rewrite (ptrEquals_trans _ _ _ Hh Hh') in Hd.
    + apply ptrEquals_sym in Hc'.
      now rewrite (ptrEquals_trans _ _ _ Hc Hc') in Hd.
Qed.

(** ** Backoff Fetcher *)

Lemma attempts_app (w1 w2 : Trace) :
  attempts (w1 ++ w2)%list = (attempts w1 + attempts w2)%nat.
Proof. unfold attempts. now rewrite filter_app, length_app. Qed.

Lemma sleeps_app (w1 w2 : Trace) : sleeps (w1 ++ w2)%list = (sleeps w1 ++ sleeps w2)%list.
Proof. unfold sleeps. now rewrite flat_map_app. Qed.

Lemma published_app (w1 w2 : Trace) :
  published (w1 ++ w2)%list = (published w1 ++ published w2)%list.
Proof. unfold published. now rewrite flat_map_app. Qed.

Section BackoffFacts.

Context {T : Type}.
Variable env : Env.
Variable dec : Decoder T.
Variable url : string.
Variable headers : list (string * string).
Hypothesis request_ok : newRequestError env url = None.

(** One iteration of the loop whose request is answered by a body that
    decodes. *)
Lemma backoffLoop_decoded (remaining : nat) (attempt : Z)
    (out out' : SwitchBotResponse T) (bodyBytes : string) (w : Trace)
    (k : nat) :
  attempts w = k ->
  vendorDo env url headers k = BodyRead bodyBytes ->
  unmarshal dec bodyBytes out = inr out' ->
  backoffLoop env dec url headers (S remaining) attempt out w =
  if StatusCode out' =? 100 then (inr out', (w ++ [EvVendorGET url])%list)
  else if StatusCode out' =? 190 then
    if attempt <? 4 then
      backoffLoop env dec url headers remaining (attempt + 1) out'
        (w ++ [EvVendorGET url; EvSleep (Z.shiftl 1 attempt)])%list
    else (inl (MaxRetriesReached (Message out')), (w ++ [EvVendorGET url])%list)
  else (inl (UnexpectedStatusCode (StatusCode out') (Message out')),
        (w ++ [EvVendorGET url])%list).
Proof.
  intros <- Hdo Hdec. simpl. rewrite request_ok.
  unfold bind, clientDo, trace, emit, ret, bind. simpl.
  rewrite Hdo, Hdec.
  destruct (StatusCode out' =? 100); [reflexivity|].
  destruct (StatusCode out' =? 190); [|reflexivity].
  destruct (attempt <? 4); [|reflexivity].
  now rewrite <- app_assoc.
Qed.

(** One iteration of the loop whose request is not answered by a body
    that decodes. *)
Lemma backoffLoop_undecoded (remaining : nat) (attempt : Z)
    (out : SwitchBotResponse T) (w : Trace) :
  backoffLoop env dec url headers (S remaining) attempt out w =
  match vendorDo env url headers (attempts w) with
  | DoFailed err =>
      (inl (Wrap "HTTP request failed" err), (w ++ [EvVendorGET url])%list)
  | ReadFailed err =>
      (inl (Wrap "reading response failed" err), (w ++ [EvVendorGET url])%list)
  | BodyRead bodyBytes =>
      match unmarshal dec bodyBytes out with
      | inl err => (inl (UnmarshalFailed err bodyBytes), (w ++ [EvVendorGET url])%list)
      | inr _ => backoffLoop env dec url headers (S remaining) attempt out w
      end
  end.
Proof.
  destruct (vendorDo env url headers (attempts w)) as [e|e|b] eqn:Hdo;
    try (simpl; rewrite request_ok;
         unfold bind, clientDo, trace, emit, ret, bind; simpl;
         now rewrite Hdo).
  destruct (unmarshal dec b out) as [e|o] eqn:Hdec; [|reflexivity].
  simpl. rewrite request_ok.
  unfold bind, clientDo, trace, emit, ret, bind. simpl.
  now rewrite Hdo, Hdec.
Qed.

End BackoffFacts.


Lemma attempts_after_wait (w : Trace) (url : string) (s : Z) :
  attempts (w ++ [EvVendorGET url; EvSleep s])%list = S (attempts w).
Proof.
  rewrite attempts_app.
  change (attempts [EvVendorGET url; EvSleep s]) with 1%nat. lia.
Qed.

(** Consume the first answer of [H] as one iteration of the loop; the
    remaining answers are left in [H']. *)
Ltac retry_step Hreq H H' :=
  let k := fresh "k" in let o := fresh "o" in let b := fresh "b" in
  let o' := fresh "o'" in let c := fresh "c" in let cs := fresh "cs" in
  let f := fresh "f" in
  let Hdo := fresh "Hdo" in let Hdec := fresh "Hdec" in
  let Hcode := fresh "Hcode" in let Hat := fresh "Hat" in
  inversion H as [|k o b o' c cs f Hdo Hdec Hcode H']; clear H; subst;
  match goal with
  | |- context [backoffLoop _ _ _ _ _ _ _ ?W] =>
      match type of Hdo with
      | vendorDo _ _ _ ?n = _ =>
          assert (Hat : attempts W = n)
            by (repeat rewrite attempts_after_wait; reflexivity)
      end
  end;
  rewrite (backoffLoop_decoded _ _ _ _ Hreq _ _ _ _ _ _ _ Hat Hdo Hdec);
  rewrite Hcode;
  cbn [Z.eqb Pos.eqb Z.ltb Z.compare Pos.compare Pos.compare_cont Z.add
       Pos.add Z.shiftl Pos.iter Z.mul Pos.mul Pos.succ];
  clear Hat.

(** C3: on status 190 the fetch waits [2^attempt] seconds after each of
    the attempts 0 to 3 (1s, 2s, 4s, 8s) and makes at most five requests.
    Told to retry [n <= 4] times and then answered with status 100, it
    returns the body decoded last after exactly [n + 1] requests (five
    when [n = 4]); answered with 190 five times, it fails after exactly
    five requests with the max-retries error carrying the last message. *)
Theorem backoff_retries_on_190 :
  forall (T : Type) (env : Env) (dec : Decoder T) (url : string)
         (headers : list (string * string)) (out : SwitchBotResponse T)
         (w : Trace),
    newRequestError env url = None ->
    (forall n final,
        (n <= 4)%nat ->
        Answers env dec url headers (attempts w) out
          (repeat 190 n ++ [100]) final ->
        requestWithBackoff env dec url headers out w
        = (inr final, (w ++ backoffTrace url n)%list))
    /\ (forall final,
           Answers env dec url headers (attempts w) out (repeat 190 5) final ->
           requestWithBackoff env dec url headers out w
           = (inl (MaxRetriesReached (Message final)),
              (w ++ backoffTrace url 4)%list))
    /\ attempts (backoffTrace url 4) = 5%nat
    /\ sleeps (backoffTrace url 4) = [1; 2; 4; 8].
Proof.
  intros T env dec url headers out w Hreq.
  split; [|split; [|split; reflexivity]].
  - intros n final Hn H. unfold requestWithBackoff.
    destruct n as [|[|[|[|[|n]]]]]; [| | | | |lia]; simpl in H.
    + retry_step Hreq H Rest1. inversion Rest1; subst. reflexivity.
    + retry_step Hreq H Rest1. retry_step Hreq Rest1 Rest2.
      inversion Rest2; subst. now rewrite <- app_assoc.
    + retry_step Hreq H Rest1. retry_step Hreq Rest1 Rest2. retry_step Hreq Rest2 Rest3.
      inversion Rest3; subst. now rewrite <- !app_assoc.
    + retry_step Hreq H Rest1. retry_step Hreq Rest1 Rest2. retry_step Hreq Rest2 Rest3.
      retry_step Hreq Rest3 Rest4. inversion Rest4; subst. now rewrite <- !app_assoc.
    + retry_step Hreq H Rest1. retry_step Hreq Rest1 Rest2. retry_step Hreq Rest2 Rest3.
      retry_step Hreq Rest3 Rest4. retry_step Hreq Rest4 Rest5.
      inversion Rest5; subst. now rewrite <- !app_assoc.
  - intros final H. unfold requestWithBackoff. simpl in H.
    retry_step Hreq H Rest1. retry_step Hreq Rest1 Rest2. retry_step Hreq Rest2 Rest3.
    retry_step Hreq Rest3 Rest4. retry_step Hreq Rest4 Rest5.
    inversion Rest5; subst. now rewrite <- !app_assoc.
Qed.

(** C4: a first envelope whose status code is neither 100 nor 190, a
    transport failure and a body that does not decode each end the fetch
    after exactly one request, with no wait: the first with the
    unexpected-status error carrying the code and the message, the others
    with their own wrapped errors. *)
Theorem backoff_fails_without_retry :
  forall (T : Type) (env : Env) (dec : Decoder T) (url : string)
         (headers : list (string * string)) (out : SwitchBotResponse T)
         (w : Trace),
    newRequestError env url = None ->
    (forall code final,
        code <> 100 -> code <> 190 ->
        Answers env dec url headers (attempts w) out [code] final ->
        requestWithBackoff env dec url headers out w
        = (inl (UnexpectedStatusCode code (Message final)),
           (w ++ [EvVendorGET url])%list))
    /\ (forall err,
           vendorDo env url headers (attempts w) = DoFailed err ->
           requestWithBackoff env dec url headers out w
           = (inl (Wrap "HTTP request failed" err),
              (w ++ [EvVendorGET url])%list))
    /\ (forall err,
           vendorDo env url headers (attempts w) = ReadFailed err ->
           requestWithBackoff env dec url headers out w
           = (inl (Wrap "reading response failed" err),
              (w ++ [EvVendorGET url])%list))
    /\ (forall bodyBytes err,
           vendorDo env url headers (attempts w) = BodyRead bodyBytes ->
           unmarshal dec bodyBytes out = inl err ->
           requestWithBackoff env dec url headers out w
           = (inl (UnmarshalFailed err bodyBytes),
              (w ++ [EvVendorGET url])%list))
    /\ attempts [EvVendorGET url] = 1%nat
    /\ sleeps [EvVendorGET url] = [].
Proof.
  intros T env dec url headers out w Hreq. unfold requestWithBackoff.
  repeat split.
  - intros code final H100 H190 H.
    inversion H as [|k o b o' c cs f Hdo Hdec Hcode Hrest]; subst.
    inversion Hrest; subst.
    rewrite (backoffLoop_decoded _ _ _ _ Hreq _ _ _ _ _ _ _ eq_refl Hdo Hdec).
    apply Z.eqb_neq in H100, H190. now rewrite H100, H190.
  - intros err Hdo.
    now rewrite (backoffLoop_undecoded _ _ _ _ Hreq), Hdo.
  - intros err Hdo.
    now rewrite (backoffLoop_undecoded _ _ _ _ Hreq), Hdo.
  - intros bodyBytes err Hdo Hdec.
    now rewrite (backoffLoop_undecoded _ _ _ _ Hreq), Hdo, Hdec.
Qed.

(** ** Message Composer *)

Lemma countByte_append (c : ascii) (a b : string) :
  countByte c (a ++ b) = (countByte c a + countByte c b)%nat.
Proof.
  induction a as [|x a IH]; simpl; [reflexivity | rewrite IH; lia].
Qed.

Lemma lineCount_append (a b : string) :
  lineCount (a ++ b) = (lineCount a + lineCount b)%nat.
Proof. apply countByte_append. Qed.

Lemma lineCount_uint (d : Decimal.uint) :
  lineCount (NilEmpty.string_of_uint d) = O.
Proof. induction d; simpl; try reflexivity; exact IHd. Qed.

Lemma lineCount_fmt_d (n : Z) : lineCount (fmt_d n) = O.
Proof.
  unfold fmt_d, NilZero.string_of_int, NilZero.string_of_uint.
  destruct (Z.to_int n) as [d|d]; destruct d; try reflexivity;
    try (apply (lineCount_uint (_ d)));
    try (change (lineCount (String "-" (NilEmpty.string_of_uint ?x)))
           with (lineCount (NilEmpty.string_of_uint x)));
    simpl; try reflexivity; apply lineCount_uint.
Qed.

Lemma lineCount_fmt_f1 (x : float64) : lineCount (fmt_f1 x) = O.
Proof.
  destruct x as [s|s| |s m e]; unfold fmt_f1, fmt_sign; cbv zeta.
  - now destruct s.
  - now destruct s.
  - reflexivity.
  - rewrite !lineCount_append, !lineCount_fmt_d. now destruct s.
Qed.

Lemma composeMessage_eq (device : SwitchBotDevice) (posts : list MastodonPost)
    (status : SwitchBotDeviceStatus) :
  composeMessage device posts status
  = inr (headerLine device posts status ++ temperatureLine status
           ++ humidityLine status ++ co2Line status).
Proof.
  unfold composeMessage, headerLine, batterySuffix, batteryStatusEmoji,
    extractRecentMessagesForDevice.
  destruct (Battery status) as [percent|]; cbv beta iota zeta; cbn [fst].
  - destruct (isRepeated status _); cbv beta iota; now rewrite !append_assoc.
  - cbn [append]. now rewrite !append_assoc.
Qed.

Lemma co2Icon_tiers (c : Z) :
  (1500 <= c -> co2Icon c = Lit.iconAlert)
  /\ (1000 <= c < 1500 -> co2Icon c = Lit.iconCaution)
  /\ (c < 1000 -> co2Icon c = Lit.iconNormal).
Proof.
  unfold co2Icon. repeat split; intros Hc.
  - destruct (Z.leb_spec 1500 c); [reflexivity | lia].
  - destruct (Z.leb_spec 1500 c); [lia|].
    destruct (Z.leb_spec 1000 c); [reflexivity | lia].
  - destruct (Z.leb_spec 1500 c); [lia|].
    destruct (Z.leb_spec 1000 c); [lia | reflexivity].
Qed.

(** C6: the header carries the suffix [" (" + emoji + percent + "%)"]
    exactly when the battery field is present, the emoji being the warning
    symbol when the detector flags the reading as repeated and the battery
    symbol otherwise; without a battery field the header has no suffix and
    the message does not depend on the history at all. *)
Theorem header_battery_suffix :
  forall (device : SwitchBotDevice) (posts posts' : list MastodonPost)
         (status : SwitchBotDeviceStatus)
         (t h : option float64) (c : option Z),
    composeMessage device posts status
    = inr (makeDeviceHeader (DeviceName device)
           ++ batterySuffix device posts status ++ nl
           ++ temperatureLine status ++ humidityLine status ++ co2Line status)
    /\ batterySuffix device posts (mkStatus None t h c) = ""
    /\ composeMessage device posts (mkStatus None t h c)
       = composeMessage device posts' (mkStatus None t h c)
    /\ Lit.emojiWarning <> Lit.emojiBattery.
Proof.
  intros device posts posts' status t h c. repeat split.
  - rewrite composeMessage_eq. unfold headerLine. now rewrite !append_assoc.
  - discriminate.
Qed.

(** C7: after the header line the message holds one line per present
    field, in the order temperature, humidity, CO2, and nothing for an
    absent field; the CO2 line ends with the alert icon from 1500 ppm, the
    caution icon from 1000 ppm up to 1499, the normal icon below 1000; a
    reading with no field still yields the header line, which is ["# "],
    the device name, the battery suffix if any, and a line feed. *)
Theorem one_line_per_present_field :
  forall (device : SwitchBotDevice) (posts : list MastodonPost)
         (status : SwitchBotDeviceStatus),
    composeMessage device posts status
    = inr (headerLine device posts status ++ temperatureLine status
           ++ humidityLine status ++ co2Line status)
    /\ lineCount (temperatureLine status ++ humidityLine status
                  ++ co2Line status) = presentFields status
    /\ (forall t, Temperature status = Some t ->
                  temperatureLine status
                  = Lit.tempLabel ++ fmt_f1 t ++ Lit.tempUnit ++ nl)
    /\ (Temperature status = None -> temperatureLine status = "")
    /\ (forall h, Humidity status = Some h ->
                  humidityLine status
                  = Lit.humLabel ++ fmt_f1 h ++ Lit.humUnit ++ nl)
    /\ (Humidity status = None -> humidityLine status = "")
    /\ (forall c, CO2 status = Some c ->
                  exists icon,
                    co2Line status
                    = Lit.co2Label ++ fmt_d c ++ Lit.co2Unit ++ " " ++ icon ++ nl
                    /\ (1500 <= c -> icon = Lit.iconAlert)
                    /\ (1000 <= c < 1500 -> icon = Lit.iconCaution)
                    /\ (c < 1000 -> icon = Lit.iconNormal))
    /\ (CO2 status = None -> co2Line status = "")
    /\ (presentFields status = O ->
        composeMessage device posts status
        = inr (headerLine device posts status))
    /\ headerLine device posts status
       = "# " ++ DeviceName device ++ batterySuffix device posts status
         ++ String "010" ""
    /\ (presentFields status = O ->
        composeMessage device posts status
        = inr ("# " ++ DeviceName device ++ batterySuffix device posts status
               ++ String "010" ""))
    /\ (presentFields status = O -> Battery status = None ->
        composeMessage device posts status
        = inr ("# " ++ DeviceName device ++ String "010" "")).
Proof.
  intros device posts status.
  assert (Hbare : presentFields status = O ->
                  composeMessage device posts status
                  = inr ("# " ++ DeviceName device
                         ++ batterySuffix device posts status
                         ++ String "010" "")).
  { intros Hnone. rewrite composeMessage_eq.
    unfold presentFields, temperatureLine, humidityLine, co2Line in *.
    destruct (Temperature status), (Humidity status), (CO2 status);
      try discriminate.
    now rewrite append_nil_r. }
  split; [apply composeMessage_eq|].
  split.
  { unfold temperatureLine, humidityLine, co2Line, presentFields.
    destruct (Temperature status), (Humidity status), (CO2 status);
      rewrite ?lineCount_append, ?lineCount_fmt_f1, ?lineCount_fmt_d;
      unfold co2Icon; cbn [isNil]; cbv iota;
      repeat match goal with |- context [if ?b then _ else _] => destruct b end;
      reflexivity. }
  unfold temperatureLine, humidityLine, co2Line.
  repeat split.
  - now intros t ->.
  - now intros ->.
  - now intros h ->.
  - now intros ->.
  - intros c ->. exists (co2Icon c). split; [reflexivity|].
    apply co2Icon_tiers.
  - now intros ->.
  - intros Hnone. rewrite composeMessage_eq.
    unfold presentFields, temperatureLine, humidityLine, co2Line in *.
    destruct (Temperature status), (Humidity status), (CO2 status);
      try discriminate.
    now rewrite append_nil_r.
  - exact Hbare.
  - intros Hnone Hbattery. rewrite (Hbare Hnone).
    unfold batterySuffix. now rewrite Hbattery.
Qed.

(** ** History Parser *)

Lemma closeTag_shorter (s rest : string) :
  closeTag s = Some rest -> (String.length rest < String.length s)%nat.
Proof.
  revert rest. induction s as [|c s IH]; intros rest; simpl; [discriminate|].
  destruct (Ascii.eqb c ">"); [intros [= ->]; lia|].
  destruct (Ascii.eqb c (ascii_of_nat 10)); [discriminate|].
  intros Hc. apply IH in Hc. lia.
Qed.

(** The scanning budget of [stripHTMLTags] is never exhausted: any larger
    budget gives the same text. *)
Lemma stripTags_enough_fuel (n m : nat) (s : string) :
  (String.length s <= n)%nat -> (String.length s <= m)%nat ->
  stripTags n s = stripTags m s.
Proof.
  revert m s. induction n as [|n IH]; intros m s Hn Hm.
  - destruct s; [|simpl in Hn; lia]. now destruct m.
  - destruct m as [|m]; [destruct s; [reflexivity | simpl in Hm; lia]|].
    destruct s as [|c s]; [reflexivity|]. simpl in Hn, Hm. simpl.
    destruct (Ascii.eqb c "<").
    + destruct (closeTag s) as [rest|] eqn:Hc.
      * apply closeTag_shorter in Hc. apply IH; lia.
      * f_equal. apply IH; lia.
    + f_equal. apply IH; lia.
Qed.

Lemma collectSections_flat_map (deviceName : string)
    (posts : list MastodonPost) (messages : list string) :
  collectSections deviceName posts messages
  = (messages ++ flat_map (deviceSection deviceName) posts)%list.
Proof.
  revert messages. induction posts as [|post posts IH]; intros messages; simpl.
  - now rewrite app_nil_r.
  - now rewrite IH, app_assoc.
Qed.

Lemma deviceSection_entryOf (deviceName : string) (post : MastodonPost) :
  entryOf (makeDeviceHeader deviceName) (stripHTMLTags (Content post))
    (deviceSection deviceName post).
Proof.
  unfold deviceSection, Index.
  set (text := stripHTMLTags (Content post)).
  set (header := makeDeviceHeader deviceName).
  destruct (firstIndex text header) as [i|] eqn:Hi.
  - destruct (firstIndex_Some _ _ _ Hi) as [(before & after & Htext & Hlen) Hmin].
    replace (negb (Z.of_nat i =? -1)) with true
      by (symmetry; apply negb_true_iff, Z.eqb_neq; lia).
    rewrite Nat2Z.id, <- Hlen, Htext, drop_append.
    rewrite <- Htext. apply (entryOf_suffix _ _ before after Htext).
    intros j Hj. rewrite Hlen. now apply Hmin.
  - simpl. apply entryOf_none. now apply firstIndex_None.
Qed.

(** C9: the matching entries of a device are, post by post in feed order,
    the text from the first occurrence of ["# " + deviceName] in the
    tag-stripped post to the end of that post, and nothing for a post in
    which the header does not occur.  So a report on a device whose name
    merely extends the name counts as an entry, and an entry taken from a
    combined report runs on into the sections of later devices, whose
    fields it may yield. *)
Theorem matching_entries_are_header_suffixes :
  forall (deviceName : string) (posts : list MastodonPost),
    (exists entries : list (list string),
        Forall2 (fun post entry =>
                   entryOf ("# " ++ deviceName) (stripHTMLTags (Content post)) entry)
          posts entries
        /\ fst (extractRecentMessagesForDevice deviceName posts)
           = List.concat entries)
    /\ fst (extractRecentMessagesForDevice "Room" [Scenario.room2Post])
       = [Scenario.rendered (mkDevice "C" "Meter" "Room 2") [] Scenario.meterReading]
    /\ fst (extractRecentMessagesForDevice "Living Room" [Scenario.combinedPost])
       = [Join [Scenario.rendered Scenario.livingRoom [] Scenario.meterReading;
                Scenario.rendered Scenario.study [] Scenario.studyReading] nl]
    /\ CO2 Scenario.meterReading = None
    /\ map parsedCO2
         (fst (extractRecentMessagesForDevice "Living Room" [Scenario.combinedPost]))
       = [CO2 Scenario.studyReading].
Proof.
  intros deviceName posts. split.
  - exists (map (deviceSection deviceName) posts). split.
    + induction posts as [|post posts IH]; simpl; constructor.
      * apply (deviceSection_entryOf deviceName post).
      * exact IH.
    + unfold extractRecentMessagesForDevice. simpl.
      rewrite collectSections_flat_map. simpl. now rewrite flat_map_concat_map.
  - repeat split; vm_compute; reflexivity.
Qed.

(** ** Message generation and the orchestrator *)

Lemma generateStatusMessage_eq (env : Env) (device : SwitchBotDevice)
    (posts : list MastodonPost) (w : Trace) :
  generateStatusMessage env device posts w
  = match fetchDeviceStatus env device w with
    | (inl err, w1) => (inl err, w1)
    | (inr status, w1) =>
        (composeMessage device posts status,
         snd (PutMetric env device status w1))
    end.
Proof.
  unfold generateStatusMessage, bind.
  destruct (fetchDeviceStatus env device w) as [[err|status] w1]; [reflexivity|].
  unfold ret. now destruct (PutMetric env device status w1).
Qed.

(** C10: [extractRecentMessagesForDevice] always returns a nil error, so
    [batteryStatusEmoji] never fails, and [generateStatusMessage] returns
    an error exactly when the status fetch of the device fails, that error
    being the one of the fetch; a failure of the metrics call is not
    returned. *)
Theorem only_the_status_fetch_fails :
  forall (env : Env) (device : SwitchBotDevice) (posts : list MastodonPost)
         (status : SwitchBotDeviceStatus) (w : Trace),
    snd (extractRecentMessagesForDevice (DeviceName device) posts) = None
    /\ snd (batteryStatusEmoji device posts status) = None
    /\ (forall err,
           fst (generateStatusMessage env device posts w) = inl err
           <-> fst (fetchDeviceStatus env device w) = inl err)
    /\ (forall w1 err,
           fetchDeviceStatus env device w = (inr status, w1) ->
           fst (PutMetric env device status w1) = Some err ->
           exists message,
             fst (generateStatusMessage env device posts w) = inr message).
Proof.
  intros env device posts status w. split; [reflexivity|]. split.
  { unfold batteryStatusEmoji, extractRecentMessagesForDevice.
    now destruct (isRepeated status _). }
  split.
  - intros err. rewrite generateStatusMessage_eq.
    destruct (fetchDeviceStatus env device w) as [[err'|st] w1]; simpl.
    + split; intros [= ->]; reflexivity.
    + rewrite composeMessage_eq. split; discriminate.
  - intros w1 err Hfetch _. rewrite generateStatusMessage_eq, Hfetch.
    rewrite composeMessage_eq. eexists. reflexivity.
Qed.

Lemma published_backoffLoop {T : Type} (env : Env) (dec : Decoder T)
    (url : string) (headers : list (string * string)) (remaining : nat) :
  forall (attempt : Z) (out : SwitchBotResponse T) (w : Trace),
    published (snd (backoffLoop env dec url headers remaining attempt out w))
    = published w.
Proof.
  induction remaining as [|remaining IH]; intros attempt out w; [reflexivity|].
  simpl. destruct (newRequestError env url); [reflexivity|].
  unfold bind, clientDo, trace, emit, ret, bind. simpl.
  assert (Hget : published (w ++ [EvVendorGET url])%list = published w)
    by (rewrite published_app; apply app_nil_r).
  destruct (vendorDo env url headers (attempts w)); try exact Hget.
  destruct (unmarshal dec bodyBytes out) as [err|out']; [exact Hget|].
  destruct (StatusCode out' =? 100); [exact Hget|].
  destruct (StatusCode out' =? 190); [|exact Hget].
  destruct (attempt <? 4); [|exact Hget].
  rewrite IH, published_app, Hget. apply app_nil_r.
Qed.

Lemma published_fetchDevices (env : Env) (w : Trace) :
  published (snd (fetchDevices env w)) = published w.
Proof.
  unfold fetchDevices, bind, requestWithBackoff.
  pose proof (published_backoffLoop env (decodeDeviceList env)
                "https://api.switch-bot.com/v1.1/devices"
                (generateSwitchBotHeaders env) 5 0
                (zeroResponse (decodeDeviceList env)) w) as Hp.
  destruct (backoffLoop _ _ _ _ _ _ _ w) as [[err|resp] w1]; exact Hp.
Qed.

Lemma published_fetchDeviceStatus (env : Env) (device : SwitchBotDevice)
    (w : Trace) :
  published (snd (fetchDeviceStatus env device w)) = published w.
Proof.
  unfold fetchDeviceStatus, bind, requestWithBackoff.
  match goal with
  | |- context [backoffLoop ?e ?d ?u ?h ?r ?a ?o w] =>
      pose proof (published_backoffLoop e d u h r a o w) as Hp;
      destruct (backoffLoop e d u h r a o w) as [[err|resp] w1]; exact Hp
  end.
Qed.

Lemma published_fetchRecentMastodonPosts (env : Env) (w : Trace) :
  published (snd (fetchRecentMastodonPosts env w)) = published w.
Proof.
  unfold fetchRecentMastodonPosts, bind, emit, ret. simpl.
  destruct (verifyCredentials env) as [err|id]; simpl.
  - rewrite published_app. apply app_nil_r.
  - destruct (accountStatuses env _); simpl;
      rewrite !published_app; simpl; now rewrite !app_nil_r.
Qed.

Lemma published_PutMetric (env : Env) (device : SwitchBotDevice)
    (status : SwitchBotDeviceStatus) (w : Trace) :
  published (snd (PutMetric env device status w)) = published w.
Proof.
  unfold PutMetric, bind, emit, ret.
  destruct (awsConfigError env); [reflexivity|].
  destruct (List.length (metricData status) =? 0)%nat; [reflexivity|]. simpl.
  destruct (putMetricDataError env (DeviceID device)); simpl;
    rewrite published_app; apply app_nil_r.
Qed.

Lemma published_generateStatusMessage (env : Env) (device : SwitchBotDevice)
    (posts : list MastodonPost) (w : Trace) :
  published (snd (generateStatusMessage env device posts w)) = published w.
Proof.
  rewrite generateStatusMessage_eq.
  pose proof (published_fetchDeviceStatus env device w) as Hp.
  destruct (fetchDeviceStatus env device w) as [[err|status] w1]; simpl in *.
  - exact Hp.
  - now rewrite published_PutMetric.
Qed.

Lemma published_collectMessages (env : Env) (devices : list SwitchBotDevice)
    (posts : list MastodonPost) :
  forall (messages : list string) (w : Trace),
    published (snd (collectMessages env devices posts messages w))
    = published w.
Proof.
  induction devices as [|device devices IH]; intros messages w; [reflexivity|].
  simpl. destruct (negb (isTargetDevice (DeviceType device))); [apply IH|].
  unfold bind.
  pose proof (published_generateStatusMessage env device posts w) as Hp.
  destruct (generateStatusMessage env device posts w) as [[err|message] w1];
    simpl in Hp; now rewrite IH.
Qed.

Lemma collectMessages_no_target (env : Env) (devices : list SwitchBotDevice)
    (posts : list MastodonPost) (messages : list string) (w : Trace) :
  (forall device, In device devices ->
                  isTargetDevice (DeviceType device) = false) ->
  collectMessages env devices posts messages w = (messages, w).
Proof.
  induction devices as [|device devices IH]; intros Hno; [reflexivity|].
  simpl. rewrite (Hno device (or_introl eq_refl)). simpl.
  apply IH. intros d Hd. apply Hno. now right.
Qed.

Lemma handler_eq (env : Env) (w : Trace) :
  handler env w
  = match loadConfigError env with
    | Some err => (Some (Wrap "loadConfig error" err), w)
    | None =>
        match fetchDevices env w with
        | (inl err, w1) => (Some (Wrap "fetchDevices error" err), w1)
        | (inr devices, w1) =>
            match fetchRecentMastodonPosts env w1 with
            | (inl err, w2) =>
                (Some (Wrap "fetchRecentMastodonPosts error" err), w2)
            | (inr posts, w2) =>
                match collectMessages env devices posts [] w2 with
                | ([], w3) => (None, w3)
                | (messages, w3) =>
                    (publishError env (Join messages nl),
                     (w3 ++ [EvPublish (Join messages nl)])%list)
                end
            end
        end
    end.
Proof.
  unfold handler. destruct (loadConfigError env); [reflexivity|].
  unfold bind.
  destruct (fetchDevices env w) as [[err|devices] w1]; [reflexivity|].
  destruct (fetchRecentMastodonPosts env w1) as [[err|posts] w2]; [reflexivity|].
  destruct (collectMessages env devices posts [] w2) as [[|m ms] w3];
    reflexivity.
Qed.

Lemma Join_concat (elems : list string) (sep : string) :
  Join elems sep = String.concat sep elems.
Proof.
  induction elems as [|x rest IH]; [reflexivity|].
  destruct rest as [|y rest]; [reflexivity|].
  change (Join (x :: y :: rest) sep) with (x ++ sep ++ Join (y :: rest) sep).
  change (String.concat sep (x :: y :: rest))
    with (x ++ sep ++ String.concat sep (y :: rest)).
  now rewrite IH.
Qed.

(** C8: a run publishes exactly when its device loop produced at least
    one message, and then publishes once, the messages in order with one
    line feed between each two of them (a single message as it is, two
    messages as the first, a line feed, the second); a run that reaches
    the device loop and produces no message, in particular one whose
    directory holds no device of a recognized type, publishes nothing and
    ends without error. *)
Theorem publish_iff_some_message :
  forall (env : Env) (w : Trace),
    published (snd (handler env w))
    = (published w
       ++ match messagesProduced env w with
          | [] => []
          | messages => [String.concat (String "010" "") messages]
          end)%list
    /\ (forall elems sep, Join elems sep = String.concat sep elems)
    /\ (forall a, Join [a] (String "010" "") = a)
    /\ (forall a b, Join [a; b] (String "010" "") = a ++ String "010" "" ++ b)
    /\ (forall a b c,
           Join [a; b; c] (String "010" "")
           = a ++ String "010" "" ++ b ++ String "010" "" ++ c)
    /\ (reachesDeviceLoop env w ->
        messagesProduced env w = [] ->
        fst (handler env w) = None)
    /\ (reachesDeviceLoop env w ->
        (forall device, In device (directoryOf env w) ->
                        isTargetDevice (DeviceType device) = false) ->
        messagesProduced env w = []
        /\ published (snd (handler env w)) = published w
        /\ fst (handler env w) = None).
Proof.
  intros env w.
  assert (Hpub : published (snd (handler env w))
                 = (published w
                    ++ match messagesProduced env w with
                       | [] => []
                       | messages => [String.concat (String "010" "") messages]
                       end)%list).
  { change (String "010" "") with nl.
    replace (match messagesProduced env w with
             | [] => []
             | messages => [String.concat nl messages]
             end)
      with (match messagesProduced env w with
            | [] => []
            | messages => [Join messages nl]
            end)
      by (destruct (messagesProduced env w); [reflexivity|];
          now rewrite Join_concat).
    rewrite handler_eq. unfold messagesProduced.
    destruct (loadConfigError env); [now rewrite app_nil_r|].
    pose proof (published_fetchDevices env w) as H1.
    destruct (fetchDevices env w) as [[err|devices] w1]; cbn [snd] in *;
      [now rewrite app_nil_r|].
    pose proof (published_fetchRecentMastodonPosts env w1) as H2.
    destruct (fetchRecentMastodonPosts env w1) as [[err|posts] w2];
      cbn [snd] in *; [rewrite app_nil_r; congruence|].
    pose proof (published_collectMessages env devices posts [] w2) as H3.
    destruct (collectMessages env devices posts [] w2) as [[|m ms] w3];
      cbn [fst snd] in *.
    - rewrite app_nil_r. congruence.
    - rewrite published_app. cbn [published flat_map app]. congruence. }
  assert (Herr : reachesDeviceLoop env w -> messagesProduced env w = [] ->
                 fst (handler env w) = None).
  { intros (Hcfg & devices & w1 & Hd & posts & w2 & Hp).
    rewrite handler_eq. unfold messagesProduced. rewrite Hcfg, Hd, Hp.
    destruct (collectMessages env devices posts [] w2) as [[|m ms] w3];
      [reflexivity | discriminate]. }
  split; [exact Hpub|]. split; [apply Join_concat|].
  split; [reflexivity|]. split; [reflexivity|]. split; [reflexivity|].
  split; [exact Herr|].
  intros Hreach Hno.
  assert (Hnone : messagesProduced env w = []).
  { destruct Hreach as (Hcfg & devices & w1 & Hd & posts & w2 & Hp).
    unfold messagesProduced, directoryOf in *. rewrite Hcfg, Hd, Hp.
    rewrite Hd in Hno. now rewrite collectMessages_no_target. }
  split; [exact Hnone|]. split; [|now apply Herr].
  rewrite Hpub, Hnone. apply app_nil_r.
Qed.

(** ** Round trip through the rendered text *)

Lemma roundTripsBelow_1001 : Scenario.roundTripsBelow 1001 = true.
Proof. vm_compute. reflexivity. Qed.

Lemma roundTripsBelow_spec (k i : nat) :
  Scenario.roundTripsBelow k = true -> (i < k)%nat ->
  ptrEquals (ParseFloat (fmt_f1 (Scenario.tenth false (Z.of_nat i))))
    (Some (Scenario.tenth false (Z.of_nat i))) = true.
Proof.
  unfold Scenario.roundTripsBelow. rewrite forallb_forall.
  intros Hall Hi. apply (Hall i). apply in_seq. lia.
Qed.

(** Temperatures and humidities from 0.0 to 100.0 in steps of one tenth
    are recovered from their own rendering. *)
Lemma one_decimal_round_trip (n : Z) :
  0 <= n <= 1000 ->
  ptrEquals (ParseFloat (fmt_f1 (Scenario.tenth false n)))
    (Some (Scenario.tenth false n)) = true.
Proof.
  intros Hn.
  pose proof (roundTripsBelow_spec 1001 (Z.to_nat n) roundTripsBelow_1001
                ltac:(lia)) as Hall.
  now rewrite Z2Nat.id in Hall by lia.
Qed.

(** C5 at a reading below zero: the composer prints the sign of the
    temperature, the temperature expression of the parser admits digits
    and points only, so the reading's own message parses to an absent
    temperature and the reading is not classified repeated against it.
    The same reading at 23.5 degrees is; ["23.50"] and ["23.5"] parse to
    equal values, ["23.5"] and ["23.6"] to unequal ones. *)
Theorem negative_temperature_not_parsed_back :
  let message :=
    Scenario.rendered Scenario.livingRoom [] Scenario.frostReading in
  composeMessage Scenario.livingRoom [] Scenario.frostReading = inr message
  /\ Temperature Scenario.frostReading = Some (Scenario.tenth true 50)
  /\ fmt_f1 (Scenario.tenth true 50) = "-5.0"
  /\ parsedTemperature message = None
  /\ parsedHumidity message = Humidity Scenario.frostReading
  /\ fst (extractRecentMessagesForDevice "Living Room" [Scenario.postOf message])
     = [message]
  /\ isRepeated Scenario.frostReading
       (fst (extractRecentMessagesForDevice "Living Room"
               [Scenario.postOf message])) = false
  /\ isRepeated Scenario.meterReading
       (fst (extractRecentMessagesForDevice "Living Room"
               [Scenario.postOf
                  (Scenario.rendered Scenario.livingRoom []
                     Scenario.meterReading)])) = true
  /\ ptrEquals (ParseFloat "23.50") (ParseFloat "23.5") = true
  /\ ptrEquals (ParseFloat "23.5") (ParseFloat "23.6") = false.
Proof. repeat split; vm_compute; reflexivity. Qed.

(** ** Instances *)

Lemma repeated_iff_all_entries_equal_witness :
  let own := Scenario.rendered Scenario.livingRoom [] Scenario.meterReading in
  [own] <> []
  /\ (isRepeated Scenario.meterReading [own] = true
      <-> Forall (entryMatches Scenario.meterReading) [own]).
Proof.
  intros own. split; [discriminate|].
  exact (proj1 (repeated_iff_all_entries_equal Scenario.meterReading [own]
                  ltac:(discriminate))).
Defined.

Lemma backoff_retries_on_190_witness :
  newRequestError Scenario.busyThenOk "u" = None
  /\ requestWithBackoff Scenario.busyThenOk
       (decodeStatus Scenario.busyThenOk) "u" []
       (zeroResponse (decodeStatus Scenario.busyThenOk)) []
     = (inr (mkResponse 100 "success" Scenario.fullReading),
        ([] ++ backoffTrace "u" 4)%list)
  /\ requestWithBackoff Scenario.alwaysBusy
       (decodeStatus Scenario.alwaysBusy) "u" []
       (zeroResponse (decodeStatus Scenario.alwaysBusy)) []
     = (inl (MaxRetriesReached
               (Message (mkResponse 190 "rate limited" Scenario.noReading))),
        ([] ++ backoffTrace "u" 4)%list).
Proof.
  split; [reflexivity|]. split.
  - apply (proj1 (backoff_retries_on_190 _ Scenario.busyThenOk
                    (decodeStatus Scenario.busyThenOk) "u" []
                    (zeroResponse (decodeStatus Scenario.busyThenOk)) []
                    eq_refl) 4%nat).
    + lia.
    + repeat (eapply Answers_cons; [reflexivity | reflexivity | reflexivity |]).
      apply Answers_nil.
  - apply (proj1 (proj2 (backoff_retries_on_190 _ Scenario.alwaysBusy
                    (decodeStatus Scenario.alwaysBusy) "u" []
                    (zeroResponse (decodeStatus Scenario.alwaysBusy)) []
                    eq_refl))).
    repeat (eapply Answers_cons; [reflexivity | reflexivity | reflexivity |]).
    apply Answers_nil.
Defined.

Lemma backoff_fails_without_retry_witness :
  newRequestError Scenario.denied "u" = None
  /\ requestWithBackoff Scenario.denied (decodeStatus Scenario.denied) "u" []
       (zeroResponse (decodeStatus Scenario.denied)) []
     = (inl (UnexpectedStatusCode 250
               (Message (mkResponse 250 "unauthorized" Scenario.noReading))),
        ([] ++ [EvVendorGET "u"])%list)
  /\ requestWithBackoff Scenario.offline (decodeStatus Scenario.offline) "u" []
       (zeroResponse (decodeStatus Scenario.offline)) []
     = (inl (Wrap "HTTP request failed" (External "connection refused")),
        ([] ++ [EvVendorGET "u"])%list)
  /\ requestWithBackoff Scenario.garbled (decodeStatus Scenario.garbled) "u" []
       (zeroResponse (decodeStatus Scenario.garbled)) []
     = (inl (UnmarshalFailed (External "invalid character") "<html>"),
        ([] ++ [EvVendorGET "u"])%list).
Proof.
  split; [reflexivity|]. split; [|split].
  - apply (proj1 (backoff_fails_without_retry _ Scenario.denied
                    (decodeStatus Scenario.denied) "u" []
                    (zeroResponse (decodeStatus Scenario.denied)) [] eq_refl)).
    + discriminate.
    + discriminate.
    + eapply Answers_cons; [reflexivity | reflexivity | reflexivity |].
      apply Answers_nil.
  - apply (proj1 (proj2 (backoff_fails_without_retry _ Scenario.offline
                    (decodeStatus Scenario.offline) "u" []
                    (zeroResponse (decodeStatus Scenario.offline)) [] eq_refl))).
    reflexivity.
  - apply (proj1 (proj2 (proj2 (proj2 (backoff_fails_without_retry _
                    Scenario.garbled (decodeStatus Scenario.garbled) "u" []
                    (zeroResponse (decodeStatus Scenario.garbled)) []
                    eq_refl))))).
    + reflexivity.
    + reflexivity.
Defined.

Lemma one_line_per_present_field_witness :
  CO2 Scenario.studyReading = Some 1250
  /\ 1000 <= 1250 < 1500
  /\ (exists icon,
        co2Line Scenario.studyReading
        = Lit.co2Label ++ fmt_d 1250 ++ Lit.co2Unit ++ " " ++ icon ++ nl
        /\ icon = Lit.iconCaution)
  /\ presentFields Scenario.noReading = O
  /\ Battery Scenario.noReading = None
  /\ composeMessage Scenario.livingRoom [] Scenario.noReading
     = inr ("# Living Room" ++ String "010" "").
Proof.
  split; [reflexivity|]. split; [lia|]. split.
  - destruct (one_line_per_present_field Scenario.study []
                Scenario.studyReading)
      as (_ & _ & _ & _ & _ & _ & Hco2 & _).
    destruct (Hco2 1250 eq_refl) as (icon & Hline & _ & Hcaution & _).
    exists icon. split; [exact Hline | apply Hcaution; lia].
  - split; [reflexivity|]. split; [reflexivity|].
    destruct (one_line_per_present_field Scenario.livingRoom []
                Scenario.noReading)
      as (_ & _ & _ & _ & _ & _ & _ & _ & _ & _ & _ & Hbare).
    exact (Hbare eq_refl eq_refl).
Defined.

Lemma only_the_status_fetch_fails_witness :
  fetchDeviceStatus Scenario.metricsDown Scenario.livingRoom []
  = (inr Scenario.meterReading,
     [EvVendorGET "https://api.switch-bot.com/v1.1/devices/A/status"])
  /\ fst (PutMetric Scenario.metricsDown Scenario.livingRoom
            Scenario.meterReading
            [EvVendorGET "https://api.switch-bot.com/v1.1/devices/A/status"])
     = Some (Wrap "failed to load AWS config" (External "no credentials"))
  /\ exists message,
      fst (generateStatusMessage Scenario.metricsDown Scenario.livingRoom [] [])
      = inr message.
Proof.
  split; [reflexivity|]. split; [reflexivity|].
  destruct (only_the_status_fetch_fails Scenario.metricsDown
              Scenario.livingRoom [] Scenario.meterReading [])
    as (_ & _ & _ & Hmsg).
  exact (Hmsg _ _ eq_refl eq_refl).
Defined.

Lemma publish_iff_some_message_witness :
  reachesDeviceLoop Scenario.onlyHub []
  /\ (forall device, In device (directoryOf Scenario.onlyHub []) ->
                     isTargetDevice (DeviceType device) = false)
  /\ messagesProduced Scenario.onlyHub [] = []
  /\ published (snd (handler Scenario.onlyHub [])) = published []
  /\ fst (handler Scenario.onlyHub []) = None
  /\ published (snd (handler Scenario.twoMeters []))
     = [Scenario.rendered Scenario.livingRoom [] Scenario.meterReading
        ++ String "010" ""
        ++ Scenario.rendered Scenario.study [] Scenario.meterReading].
Proof.
  assert (Hreach : reachesDeviceLoop Scenario.onlyHub []).
  { split; [reflexivity|].
    exists [Scenario.hub], (snd (fetchDevices Scenario.onlyHub [])).
    split; [reflexivity|].
    exists [], (snd (fetchRecentMastodonPosts Scenario.onlyHub
                      (snd (fetchDevices Scenario.onlyHub [])))).
    reflexivity. }
  assert (Hno : forall device, In device (directoryOf Scenario.onlyHub []) ->
                               isTargetDevice (DeviceType device) = false).
  { intros device [<-|[]]. reflexivity. }
  split; [exact Hreach|]. split; [exact Hno|].
  split;
    [exact (proj1 (proj2 (proj2 (proj2 (proj2 (proj2 (proj2
              (publish_iff_some_message Scenario.onlyHub []))))))
              Hreach Hno))|].
  split;
    [exact (proj1 (proj2 (proj2 (proj2 (proj2 (proj2 (proj2 (proj2
              (publish_iff_some_message Scenario.onlyHub []))))))
              Hreach Hno)))|].
  split;
    [exact (proj2 (proj2 (proj2 (proj2 (proj2 (proj2 (proj2 (proj2
              (publish_iff_some_message Scenario.onlyHub []))))))
              Hreach Hno)))|].
  rewrite (proj1 (publish_iff_some_message Scenario.twoMeters [])).
  vm_compute. reflexivity.
Defined.

(** ** Backoff Fetcher: bounds *)

Section BackoffBounds.

Context {T : Type}.
Variable env : Env.
Variable dec : Decoder T.
Variable url : string.
Variable headers : list (string * string).

(** What a run of the loop leaves behind when it starts at attempt [k]
    with [5 - k] iterations to go. *)
Lemma backoffLoop_shape (r k : nat) :
  newRequestError env url = None ->
  (k + r = 5)%nat -> (1 <= r)%nat ->
  forall (out : SwitchBotResponse T) (w : Trace),
  exists n,
    (k + n <= 4)%nat
    /\ snd (backoffLoop env dec url headers r (Z.of_nat k) out w)
       = (w ++ flat_map (fun attempt =>
                           [EvVendorGET url; EvSleep (2 ^ Z.of_nat attempt)])
                 (seq k n)
            ++ [EvVendorGET url])%list
    /\ match fst (backoffLoop env dec url headers r (Z.of_nat k) out w) with
       | inr out' => StatusCode out' = 100
       | inl (MaxRetriesReached _) => (k + n = 4)%nat
       | inl FellThrough => False
       | inl _ => True
       end.
Proof.
  intros Hreq. revert k. induction r as [|r IH]; intros k Hsum Hr out w; [lia|].
  cbn [backoffLoop]. rewrite Hreq.
  unfold bind, clientDo, trace, emit, ret, bind. cbn [fst snd].
  destruct (vendorDo env url headers (attempts w)) as [err|err|bodyBytes];
    [exists O; cbn; repeat split; lia
    |exists O; cbn; repeat split; lia|].
  destruct (unmarshal dec bodyBytes out) as [err|out'];
    [exists O; cbn; repeat split; lia|].
  destruct (StatusCode out' =? 100) eqn:H100;
    [exists O; cbn; repeat split; [lia | now apply Z.eqb_eq]|].
  destruct (StatusCode out' =? 190) eqn:H190;
    [|exists O; cbn; repeat split; lia].
  destruct (Z.ltb_spec (Z.of_nat k) 4) as [Hlt|Hge].
  - destruct (IH (S k) ltac:(lia) ltac:(lia) out'
                ((w ++ [EvVendorGET url]) ++ [EvSleep (Z.shiftl 1 (Z.of_nat k))])%list)
      as (n & Hn & Htrace & Hres).
    replace (Z.of_nat k + 1) with (Z.of_nat (S k)) by lia.
    exists (S n). split; [lia|]. split.
    + rewrite Htrace. cbn [seq flat_map].
      rewrite Z.shiftl_1_l. now rewrite <- !app_assoc.
    + destruct (fst (backoffLoop env dec url headers r (Z.of_nat (S k)) out' _))
        as [[]|]; try exact Hres; lia.
  - exists O. cbn. repeat split; lia.
Qed.

End BackoffBounds.

(** Whatever the vendor answers, a fetch whose request can be built sends
    between one and five requests, waits only between two requests, and
    waits 1, 2, 4 and 8 seconds in that order; it never sleeps after its
    last request. *)
Theorem backoff_at_most_five_requests :
  forall (T : Type) (env : Env) (dec : Decoder T) (url : string)
         (headers : list (string * string)) (out : SwitchBotResponse T)
         (w : Trace),
    newRequestError env url = None ->
    exists n,
      (n <= 4)%nat
      /\ snd (requestWithBackoff env dec url headers out w)
         = (w ++ backoffTrace url n)%list
      /\ attempts (snd (requestWithBackoff env dec url headers out w))
         = (attempts w + S n)%nat
      /\ sleeps (snd (requestWithBackoff env dec url headers out w))
         = (sleeps w ++ firstn n [1; 2; 4; 8])%list.
Proof.
  intros T env dec url headers out w Hreq.
  destruct (backoffLoop_shape env dec url headers 5 0 Hreq eq_refl
              ltac:(lia) out w) as (n & Hn & Htrace & _).
  exists n. split; [lia|]. unfold requestWithBackoff.
  change (Z.of_nat 0) with 0 in Htrace. rewrite Htrace.
  fold (backoffTrace url n). split; [reflexivity|].
  rewrite attempts_app, sleeps_app.
  destruct n as [|[|[|[|[|n]]]]]; [| | | | |lia]; split; reflexivity.
Qed.

(** A fetch never ends in the fall-through error placed after the loop; it
    succeeds only on an envelope whose status code is 100; it reports
    exhausted retries only after five requests; and when the request cannot
    be built it fails with nothing sent. *)
Theorem backoff_outcomes :
  forall (T : Type) (env : Env) (dec : Decoder T) (url : string)
         (headers : list (string * string)) (out : SwitchBotResponse T)
         (w : Trace),
    fst (requestWithBackoff env dec url headers out w) <> inl FellThrough
    /\ (forall out',
           fst (requestWithBackoff env dec url headers out w) = inr out' ->
           StatusCode out' = 100)
    /\ (forall message,
           fst (requestWithBackoff env dec url headers out w)
           = inl (MaxRetriesReached message) ->
           snd (requestWithBackoff env dec url headers out w)
           = (w ++ backoffTrace url 4)%list)
    /\ (forall err,
           newRequestError env url = Some err ->
           requestWithBackoff env dec url headers out w
           = (inl (Wrap "request creation failed" err), w)).
Proof.
  intros T env dec url headers out w.
  destruct (newRequestError env url) as [err|] eqn:Hreq.
  - assert (Hrun : requestWithBackoff env dec url headers out w
                   = (inl (Wrap "request creation failed" err), w)).
    { unfold requestWithBackoff. cbn [backoffLoop]. now rewrite Hreq. }
    rewrite Hrun. cbn [fst snd]. repeat split; try discriminate.
    now intros err' [= <-].
  - destruct (backoffLoop_shape env dec url headers 5 0 Hreq eq_refl
                ltac:(lia) out w) as (n & Hn & Htrace & Hres).
    unfold requestWithBackoff. change (Z.of_nat 0) with 0 in *.
    repeat split.
    + intros Hfell. now rewrite Hfell in Hres.
    + intros out' Hok. now rewrite Hok in Hres.
    + intros message Hmax. rewrite Hmax in Hres.
      rewrite Htrace. simpl in Hres. now subst n.
    + discriminate.
Qed.

(** ** Markup removal *)

Lemma stripTags_tagFree (n : nat) (s : string) :
  tagFree s = true -> stripTags n s = s.
Proof.
  revert s. induction n as [|n IH]; intros s; [reflexivity|].
  destruct s as [|c s]; [reflexivity|]. cbn [tagFree stripTags].
  rewrite andb_true_iff. intros [Hc Hs].
  destruct (Ascii.eqb c "<").
  - destruct (closeTag s); [discriminate|]. now rewrite IH.
  - now rewrite IH.
Qed.

Lemma closeTag_stripTags (n : nat) (s : string) :
  closeTag s = None -> closeTag (stripTags n s) = None.
Proof.
  revert s. induction n as [|n IH]; intros s; [trivial|].
  destruct s as [|c s]; [trivial|]. cbn [stripTags].
  destruct (Ascii.eqb c "<") eqn:Hlt.
  - apply Ascii.eqb_eq in Hlt. subst c. cbn [closeTag].
    change (Ascii.eqb "<" ">") with false.
    change (Ascii.eqb "<" (ascii_of_nat 10)) with false. cbv iota.
    intros Hs. rewrite Hs. cbn [closeTag].
    change (Ascii.eqb "<" ">") with false.
    change (Ascii.eqb "<" (ascii_of_nat 10)) with false. cbv iota.
    now apply IH.
  - cbn [closeTag].
    destruct (Ascii.eqb c ">"); [discriminate|].
    destruct (Ascii.eqb c (ascii_of_nat 10)); [reflexivity|]. apply IH.
Qed.

Lemma tagFree_stripTags (n : nat) (s : string) :
  (String.length s <= n)%nat -> tagFree (stripTags n s) = true.
Proof.
  revert s. induction n as [|n IH]; intros s Hn.
  - destruct s; [reflexivity | simpl in Hn; lia].
  - destruct s as [|c s]; [reflexivity|]. simpl in Hn. cbn [stripTags].
    destruct (Ascii.eqb c "<") eqn:Hlt.
    + destruct (closeTag s) as [rest|] eqn:Hclose.
      * apply closeTag_shorter in Hclose. apply IH. lia.
      * cbn [tagFree]. rewrite Hlt, (closeTag_stripTags n s Hclose).
        apply IH. lia.
    + cbn [tagFree]. rewrite Hlt. apply IH. lia.
Qed.

Lemma length_stripTags (n : nat) (s : string) :
  (String.length (stripTags n s) <= String.length s)%nat.
Proof.
  revert s. induction n as [|n IH]; intros s; [reflexivity|].
  destruct s as [|c s]; [reflexivity|]. cbn [stripTags].
  destruct (Ascii.eqb c "<").
  - destruct (closeTag s) as [rest|] eqn:Hclose.
    + apply closeTag_shorter in Hclose. specialize (IH rest). simpl. lia.
    + specialize (IH s). simpl. lia.
  - specialize (IH s). simpl. lia.
Qed.

(** Stripping leaves no tag behind, so stripping twice is stripping once; a
    text without a tag is returned as it is; and stripping never
    lengthens a text. *)
Theorem stripHTMLTags_idempotent :
  forall input : string,
    tagFree (stripHTMLTags input) = true
    /\ stripHTMLTags (stripHTMLTags input) = stripHTMLTags input
    /\ (tagFree input = true -> stripHTMLTags input = input)
    /\ (String.length (stripHTMLTags input) <= String.length input)%nat.
Proof.
  intros input. unfold stripHTMLTags.
  assert (Hfree : tagFree (stripTags (String.length input) input) = true)
    by (apply tagFree_stripTags; lia).
  repeat split.
  - exact Hfree.
  - now apply stripTags_tagFree.
  - apply stripTags_tagFree.
  - apply length_stripTags.
Qed.

(** ** Range of the parsed values *)

Lemma isDigit_value (c : ascii) :
  isDigit c = true -> 0 <= Z.of_nat (nat_of_ascii c) - 48 <= 9.
Proof.
  unfold isDigit. rewrite andb_true_iff, !Nat.leb_le. lia.
Qed.

Lemma digitsValue_nonneg (s : string) :
  forall acc, all isDigit s = true -> 0 <= acc -> 0 <= digitsValue acc s.
Proof.
  induction s as [|c s IH]; intros acc; cbn [all digitsValue]; [trivial|].
  rewrite andb_true_iff. intros [Hc Hs] Hacc.
  apply IH; [exact Hs|]. apply isDigit_value in Hc. lia.
Qed.

Lemma Atoi_range (s : string) (v : Z) :
  Atoi s = Some v -> 0 <= v <= maxInt.
Proof.
  unfold Atoi.
  destruct (isEmpty s || negb (all isDigit s)) eqn:Hbad; [discriminate|].
  apply orb_false_iff in Hbad. destruct Hbad as [_ Hall].
  apply negb_false_iff in Hall.
  destruct (Z.leb_spec (digitsValue 0 s) maxInt); [|discriminate].
  intros [= <-]. split; [|assumption].
  apply digitsValue_nonneg; [exact Hall | lia].
Qed.

Lemma shr_1_nonneg (mrs : shr_record) :
  0 <= shr_m mrs -> 0 <= shr_m (shr_1 mrs).
Proof.
  destruct mrs as [m r s]. cbn [shr_m].
  destruct m as [|p|p]; [cbn; lia | destruct p; cbn; lia | lia].
Qed.

Lemma iter_shr_1_nonneg (p : positive) :
  forall mrs, 0 <= shr_m mrs -> 0 <= shr_m (iter_pos shr_1 p mrs).
Proof.
  induction p as [p IH|p IH|]; intros mrs Hm; cbn [iter_pos].
  - apply IH, IH, shr_1_nonneg, Hm.
  - apply IH, IH, Hm.
  - apply shr_1_nonneg, Hm.
Qed.

Lemma shr_fexp_nonneg (m e : Z) (l : location) :
  0 <= m -> 0 <= shr_m (fst (shr_fexp prec emax m e l)).
Proof.
  intros Hm. unfold shr_fexp, shr.
  assert (Hrec : 0 <= shr_m (shr_record_of_loc m l))
    by (destruct l as [|[]]; exact Hm).
  destruct (fexp prec emax (Zdigits2 m + e) - e); cbn [fst]; try exact Hrec.
  now apply iter_shr_1_nonneg.
Qed.

Lemma round_nearest_even_nonneg (m : Z) (l : location) :
  0 <= m -> 0 <= round_nearest_even m l.
Proof.
  intros Hm. destruct l as [|[]]; cbn [round_nearest_even]; try lia.
  destruct (Z.even m); lia.
Qed.

(** Rounding a non-negative mantissa gives a zero, a finite value or an
    infinity of the given sign, never a NaN. *)
Lemma binary_round_aux_sign (sx : bool) (mx ex : Z) (lx : location) :
  0 <= mx ->
  match binary_round_aux prec emax sx mx ex lx with
  | S754_zero s | S754_infinity s | S754_finite s _ _ => s = sx
  | S754_nan => False
  end.
Proof.
  intros Hm. unfold binary_round_aux.
  pose proof (shr_fexp_nonneg mx ex lx Hm) as H1.
  destruct (shr_fexp prec emax mx ex lx) as [mrs' e']. cbn [fst] in H1.
  pose proof (shr_fexp_nonneg _ e' loc_Exact
                (round_nearest_even_nonneg _ (loc_of_shr_record mrs') H1)) as H2.
  destruct (shr_fexp prec emax _ e' loc_Exact) as [mrs'' e'']. cbn [fst] in H2.
  destruct (shr_m mrs'') as [|p|p]; [reflexivity| |lia].
  now destruct (e'' <=? emax - prec).
Qed.

Lemma nearestDecimal_sign (n : Z) (k : nat) :
  match nearestDecimal n k with
  | S754_zero s | S754_infinity s | S754_finite s _ _ => s = false
  | S754_nan => False
  end.
Proof.
  unfold nearestDecimal. destruct n as [|p|p]; try reflexivity.
  unfold SFdiv, SFdiv_core_binary.
  set (m' := match _ - _ - _ with Z0 => _ | Zpos _ => _ | Zneg _ => _ end).
  assert (Hm' : 0 <= m').
  { subst m'. destruct (_ - _ - _); [lia| |lia].
    rewrite Z.shiftl_mul_pow2 by lia. apply Z.mul_nonneg_nonneg; [lia|].
    apply Z.pow_nonneg. lia. }
  pose proof (Z.div_pos m' (Z.pos (Z.to_pos (10 ^ Z.of_nat k))) Hm' ltac:(lia))
    as Hq.
  unfold Z.div in Hq.
  destruct (Z.div_eucl m' _) as [q r]. cbn [fst] in Hq.
  exact (binary_round_aux_sign false q _ _ Hq).
Qed.

Lemma ParseFloat_plain (s : string) (v : float64) :
  ParseFloat s = Some v -> plainNonNegative v = true.
Proof.
  unfold ParseFloat. destruct (span isDigit s) as [ip rest].
  destruct (match rest with
            | EmptyString => Some EmptyString
            | String c fp => if isDot c && all isDigit fp then Some fp else None
            end) as [fp|]; [|discriminate].
  destruct (isEmpty ip && isEmpty fp); [discriminate|].
  pose proof (nearestDecimal_sign (digitsValue 0 (ip ++ fp)) (String.length fp))
    as Hsign.
  destruct (nearestDecimal _ _) as [sg|sg| |sg m e]; try discriminate;
    try contradiction; intros [= <-]; now subst sg.
Qed.


(** ** Decimal integers *)

Lemma digitsValue_acc (d : Decimal.uint) :
  forall acc : positive,
    digitsValue (Zpos acc) (NilEmpty.string_of_uint d)
    = Zpos (Pos.of_uint_acc d acc).
Proof.
  induction d; intros acc; cbn [NilEmpty.string_of_uint Pos.of_uint_acc];
    [reflexivity | ..];
    cbn [digitsValue]; rewrite <- IHd; f_equal;
    match goal with
    | |- context [Z.of_nat (nat_of_ascii ?c)] =>
        let v := eval vm_compute in (Z.of_nat (nat_of_ascii c)) in
        change (Z.of_nat (nat_of_ascii c)) with v
    end; lia.
Qed.

Lemma digitsValue_uint (d : Decimal.uint) :
  digitsValue 0 (NilEmpty.string_of_uint d) = Z.of_N (Pos.of_uint d).
Proof.
  induction d; cbn [NilEmpty.string_of_uint Pos.of_uint]; [reflexivity | ..];
    cbn [digitsValue]; try exact IHd; apply (digitsValue_acc d).
Qed.

Lemma all_isDigit_uint (d : Decimal.uint) :
  all isDigit (NilEmpty.string_of_uint d) = true.
Proof. induction d; cbn; trivial. Qed.

Lemma fmt_d_pos (p : positive) :
  fmt_d (Zpos p) = NilEmpty.string_of_uint (Pos.to_uint p).
Proof.
  unfold fmt_d, NilZero.string_of_int, NilZero.string_of_uint. cbn [Z.to_int].
  pose proof (Unsigned.to_uint_nonnil p) as Hnil.
  destruct (Pos.to_uint p); [contradiction | reflexivity ..].
Qed.

Lemma fmt_d_digits (n : Z) :
  0 <= n ->
  all isDigit (fmt_d n) = true /\ isEmpty (fmt_d n) = false
  /\ digitsValue 0 (fmt_d n) = n.
Proof.
  intros Hn. destruct n as [|p|p]; [now cbn | | lia].
  rewrite fmt_d_pos. split; [apply all_isDigit_uint|]. split.
  - pose proof (Unsigned.to_uint_nonnil p) as Hnil.
    destruct (Pos.to_uint p); [contradiction | reflexivity ..].
  - now rewrite digitsValue_uint, DecimalPos.Unsigned.of_to.
Qed.

(** An [int] from 0 up is read back from its [%d] rendering. *)
Lemma Atoi_fmt_d (n : Z) : 0 <= n <= maxInt -> Atoi (fmt_d n) = Some n.
Proof.
  intros [Hlo Hhi]. destruct (fmt_d_digits n Hlo) as (Hall & Hne & Hval).
  unfold Atoi. rewrite Hall, Hne, Hval. cbn [orb negb].
  now destruct (Z.leb_spec n maxInt); [|lia].
Qed.

(** ** The matcher on a rendered report *)

Lemma HasPrefix_append (l x : string) : HasPrefix (l ++ x) l = true.
Proof. apply HasPrefix_iff. now exists x. Qed.

Lemma mismatch_append (s l b : string) :
  mismatch s l = true -> mismatch (s ++ b) l = true.
Proof.
  revert l. induction s as [|x s IH]; intros l; [discriminate|].
  destruct l as [|y l]; [discriminate|]. cbn [mismatch append].
  destruct (Ascii.eqb y x); [apply IH | trivial].
Qed.

Lemma mismatch_HasPrefix (s l : string) :
  mismatch s l = true -> HasPrefix s l = false.
Proof.
  revert l. induction s as [|x s IH]; intros l; [discriminate|].
  destruct l as [|y l]; [discriminate|]. cbn [mismatch HasPrefix].
  destruct (Ascii.eqb y x); [apply IH | trivial].
Qed.

Lemma clearOf_append (l a b : string) :
  clearOf l a = true -> clearOf l b = true -> clearOf l (a ++ b) = true.
Proof.
  intros Ha Hb. induction a as [|x a IH]; [exact Hb|].
  cbn [clearOf] in Ha. apply andb_true_iff in Ha. destruct Ha as [Hm Ha].
  change (String x a ++ b) with (String x (a ++ b)). cbn [clearOf].
  rewrite (IH Ha), andb_true_r.
  exact (mismatch_append (String x a) l b Hm).
Qed.

(** A text over a byte class that excludes the first byte of [l]. *)
Lemma clearOf_class (cls : ascii -> bool) (y : ascii) (l a : string) :
  cls y = false -> all cls a = true -> clearOf (String y l) a = true.
Proof.
  intros Hy. induction a as [|x a IH]; [trivial|]. cbn [all clearOf mismatch].
  rewrite andb_true_iff. intros [Hx Ha]. rewrite (IH Ha), andb_true_r.
  destruct (Ascii.eqb_spec y x) as [->|]; [congruence | reflexivity].
Qed.

Lemma find_skip (p : Pattern) (a b : string) :
  clearOf (label p) a = true ->
  FindStringSubmatch p (a ++ b) = FindStringSubmatch p b.
Proof.
  induction a as [|x a IH]; [trivial|]. cbn [clearOf].
  rewrite andb_true_iff. intros [Hm Ha].
  change (String x a ++ b) with (String x (a ++ b)). cbn [FindStringSubmatch].
  unfold matchHere at 1.
  change (String x (a ++ b)) with (String x a ++ b) at 1.
  rewrite (mismatch_HasPrefix _ _ (mismatch_append _ _ b Hm)).
  now apply IH.
Qed.

Lemma find_nothing (p : Pattern) (a : string) :
  clearOf (label p) a = true -> isEmpty (label p) = false ->
  FindStringSubmatch p a = [].
Proof.
  intros Ha Hl. rewrite <- (append_nil_r a), (find_skip p a "" Ha).
  cbn [FindStringSubmatch]. unfold matchHere.
  now destruct (label p).
Qed.

Lemma span_exact (cls : ascii -> bool) (a : string) (c : ascii) (b : string) :
  all cls a = true -> cls c = false ->
  span cls (a ++ String c b) = (a, String c b).
Proof.
  intros Ha Hc. induction a as [|x a IH]; cbn [all append span] in *.
  - now rewrite Hc.
  - apply andb_true_iff in Ha. destruct Ha as [Hx Ha].
    now rewrite Hx, (IH Ha).
Qed.

Lemma find_here (p : Pattern) (cap : string) (c : ascii) (rest after : string) :
  closing p = String c rest -> class p c = false ->
  all (class p) cap = true -> isEmpty cap = false ->
  FindStringSubmatch p (label p ++ cap ++ closing p ++ after)
  = [label p ++ cap ++ closing p; cap].
Proof.
  intros Hclose Hc Hcap Hne.
  assert (Hm : matchHere p (label p ++ cap ++ closing p ++ after) = Some cap).
  { unfold matchHere. rewrite HasPrefix_append, drop_append.
    rewrite Hclose. change (String c rest ++ after) with (String c (rest ++ after)).
    rewrite (span_exact _ _ _ _ Hcap Hc), Hne. cbn [negb andb].
    change (String c (rest ++ after)) with (String c rest ++ after).
    now rewrite HasPrefix_append. }
  destruct (label p ++ cap ++ closing p ++ after); cbn [FindStringSubmatch];
    now rewrite Hm.
Qed.

Lemma span_spec (cls : ascii -> bool) (s a b : string) :
  span cls s = (a, b) -> s = a ++ b /\ all cls a = true.
Proof.
  revert a b. induction s as [|x s IH]; intros a b; cbn [span].
  - intros [= <- <-]. now split.
  - destruct (cls x) eqn:Hx.
    + destruct (span cls s) as [a' b']. intros [= <- <-].
      destruct (IH a' b' eq_refl) as [-> Ha']. cbn. now rewrite Hx.
    + intros [= <- <-]. now split.
Qed.

Lemma all_weaken (f g : ascii -> bool) (s : string) :
  (forall x, f x = true -> g x = true) -> all f s = true -> all g s = true.
Proof.
  intros Hfg. induction s as [|x s IH]; cbn [all]; [trivial|].
  rewrite !andb_true_iff. intros [Hx Hs]. split; [now apply Hfg | now apply IH].
Qed.

Lemma all_append (f : ascii -> bool) (a b : string) :
  all f (a ++ b) = all f a && all f b.
Proof.
  induction a as [|x a IH]; cbn [all append]; [reflexivity|].
  now rewrite IH, andb_assoc.
Qed.

(** What [ParseFloat] accepts is a non-empty text over digits and the
    point. *)
Lemma ParseFloat_syntax (s : string) (v : float64) :
  ParseFloat s = Some v ->
  all (fun c => isDigit c || isDot c) s = true /\ isEmpty s = false.
Proof.
  unfold ParseFloat. destruct (span isDigit s) as [ip rest] eqn:Hspan.
  destruct (span_spec _ _ _ _ Hspan) as [-> Hip].
  assert (Hip' : all (fun c => isDigit c || isDot c) ip = true)
    by (apply (all_weaken isDigit); [intros x ->; reflexivity | exact Hip]).
  destruct rest as [|c fp].
  - rewrite append_nil_r. destruct ip; [discriminate|]. intros _. now split.
  - destruct (isDot c) eqn:Hdot; [|discriminate].
    destruct (all isDigit fp) eqn:Hfp; [|discriminate]. cbn [andb].
    intros _. split.
    + rewrite all_append, Hip'. cbn [all andb]. rewrite Hdot, orb_true_r.
      apply (all_weaken isDigit); [intros x ->; reflexivity | exact Hfp].
    + now destruct ip.
Qed.

Lemma all_signOrDigit_fmt_d (n : Z) : all signOrDigit (fmt_d n) = true.
Proof.
  assert (Hu : forall d, all signOrDigit (NilZero.string_of_uint d) = true).
  { intros d. unfold NilZero.string_of_uint.
    destruct d; try reflexivity;
      apply (all_weaken isDigit);
      try (intros x Hx; unfold signOrDigit; now rewrite Hx);
      apply (all_isDigit_uint (_ d)). }
  unfold fmt_d, NilZero.string_of_int.
  destruct (Z.to_int n) as [d|d]; [apply Hu|].
  cbn [all]. now rewrite Hu.
Qed.

Lemma clearOf_fmt_d (l : string) (n : Z) :
  startsOutside l = true -> clearOf l (fmt_d n) = true.
Proof.
  destruct l as [|y l]; [discriminate|]. cbn [startsOutside].
  rewrite negb_true_iff, !orb_false_iff. intros [[Hd Hm] _].
  apply (clearOf_class signOrDigit); [|apply all_signOrDigit_fmt_d].
  unfold signOrDigit. now rewrite Hd, Hm.
Qed.

Lemma clearOf_fmt_f1 (l : string) (x : float64) :
  startsOutside l = true -> survivesRendering x = true ->
  clearOf l (fmt_f1 x) = true.
Proof.
  destruct l as [|y l]; [discriminate|]. cbn [startsOutside].
  rewrite negb_true_iff, !orb_false_iff. intros [[Hd _] Hdot].
  unfold survivesRendering. intros Hx.
  destruct (ParseFloat (fmt_f1 x)) as [v|] eqn:Hparse; [|discriminate].
  apply ParseFloat_syntax in Hparse. destruct Hparse as [Hall _].
  apply (clearOf_class (fun c => isDigit c || isDot c)); [|exact Hall].
  now rewrite Hd, Hdot.
Qed.

(** Split a rendered text at its concatenations and settle each piece. *)
Ltac clear_pieces :=
  first [ assumption
        | now apply clearOf_fmt_d
        | now apply clearOf_fmt_f1
        | match goal with
          | |- clearOf _ (_ ++ _) = true =>
              apply clearOf_append; [clear_pieces | clear_pieces]
          end
        | reflexivity ].

Section RenderedReport.

Variable device : SwitchBotDevice.
Variable posts : list MastodonPost.
Variable status : SwitchBotDeviceStatus.
Hypothesis name_ok : labelFree (DeviceName device) = true.
Hypothesis fields_ok : recoverable status = true.

Let report : string :=
  headerLine device posts status ++ temperatureLine status
  ++ humidityLine status ++ co2Line status.

Lemma fields_ok_temperature (t : float64) :
  Temperature status = Some t -> survivesRendering t = true.
Proof.
  intros Ht. unfold recoverable in fields_ok. rewrite Ht in fields_ok.
  now apply andb_true_iff in fields_ok as [Hth _];
    apply andb_true_iff in Hth as [Hok _].
Qed.

Lemma fields_ok_humidity (h : float64) :
  Humidity status = Some h -> survivesRendering h = true.
Proof.
  intros Hh. unfold recoverable in fields_ok. rewrite Hh in fields_ok.
  now apply andb_true_iff in fields_ok as [Hth _];
    apply andb_true_iff in Hth as [_ Hok].
Qed.

Lemma fields_ok_co2 (c : Z) : CO2 status = Some c -> 0 <= c <= maxInt.
Proof.
  intros Hc. unfold recoverable in fields_ok. rewrite Hc in fields_ok.
  apply andb_true_iff in fields_ok as [_ Hok].
  apply andb_true_iff in Hok as [Hlo Hhi].
  apply Z.leb_le in Hlo, Hhi. now split.
Qed.

Lemma headerLine_clear (l : string) :
  startsOutside l = true -> clearOf l (DeviceName device) = true ->
  clearOf l "# " = true -> clearOf l " (" = true ->
  clearOf l Lit.emojiWarning = true -> clearOf l Lit.emojiBattery = true ->
  clearOf l "%)" = true -> clearOf l nl = true ->
  clearOf l (headerLine device posts status) = true.
Proof.
  intros Hout Hname H1 H2 H3 H4 H5 H6.
  unfold headerLine, makeDeviceHeader, batterySuffix.
  destruct (Battery status) as [percent|].
  - destruct (isRepeated status _); clear_pieces.
  - clear_pieces.
Qed.

Lemma temperatureLine_clear (l : string) :
  startsOutside l = true ->
  clearOf l Lit.tempLabel = true -> clearOf l Lit.tempUnit = true ->
  clearOf l nl = true ->
  clearOf l (temperatureLine status) = true.
Proof.
  intros Hout H1 H2 H3. unfold temperatureLine.
  destruct (Temperature status) as [t|] eqn:Ht; [|reflexivity].
  pose proof (fields_ok_temperature t Ht) as Hok.
  clear_pieces.
Qed.

Lemma humidityLine_clear (l : string) :
  startsOutside l = true ->
  clearOf l Lit.humLabel = true -> clearOf l Lit.humUnit = true ->
  clearOf l nl = true ->
  clearOf l (humidityLine status) = true.
Proof.
  intros Hout H1 H2 H3. unfold humidityLine.
  destruct (Humidity status) as [h|] eqn:Hh; [|reflexivity].
  pose proof (fields_ok_humidity h Hh) as Hok.
  clear_pieces.
Qed.

Lemma co2Line_clear (l : string) :
  startsOutside l = true ->
  clearOf l Lit.co2Label = true -> clearOf l Lit.co2Unit = true ->
  clearOf l " " = true -> clearOf l Lit.iconAlert = true ->
  clearOf l Lit.iconCaution = true -> clearOf l Lit.iconNormal = true ->
  clearOf l nl = true ->
  clearOf l (co2Line status) = true.
Proof.
  intros Hout H1 H2 H3 H4 H5 H6 H7. unfold co2Line, co2Icon.
  destruct (CO2 status) as [c|]; [|reflexivity].
  destruct (1500 <=? c); [|destruct (1000 <=? c)]; clear_pieces.
Qed.

End RenderedReport.

Lemma find_at_label (p : Pattern) (cap after : string) :
  closesOutside p = true ->
  all (class p) cap = true -> isEmpty cap = false ->
  FindStringSubmatch p (label p ++ cap ++ closing p ++ after)
  = [label p ++ cap ++ closing p; cap].
Proof.
  unfold closesOutside. destruct (closing p) as [|c rest] eqn:Hclose;
    [discriminate|].
  rewrite negb_true_iff. intros Hc Hcap Hne. rewrite <- Hclose.
  now apply (find_here p cap c rest after).
Qed.

Section RoundTrip.

Variable device : SwitchBotDevice.
Variable posts : list MastodonPost.
Variable status : SwitchBotDeviceStatus.
Hypothesis name_ok : labelFree (DeviceName device) = true.
Hypothesis fields_ok : recoverable status = true.

Let report : string :=
  headerLine device posts status ++ temperatureLine status
  ++ humidityLine status ++ co2Line status.

Lemma name_clear :
  clearOf Lit.tempLabel (DeviceName device) = true
  /\ clearOf Lit.humLabel (DeviceName device) = true
  /\ clearOf Lit.co2Label (DeviceName device) = true.
Proof.
  unfold labelFree in name_ok.
  apply andb_true_iff in name_ok as [Hth Hc].
  apply andb_true_iff in Hth as [Ht Hh]. now repeat split.
Qed.

Lemma parsedTemperature_report :
  parsedTemperature report
  = match Temperature status with
    | Some t => ParseFloat (fmt_f1 t)
    | None => None
    end.
Proof.
  destruct name_clear as (Hname & _ & _).
  assert (Hhead : clearOf Lit.tempLabel (headerLine device posts status) = true)
    by (apply headerLine_clear; trivial).
  assert (Hhum : clearOf Lit.tempLabel (humidityLine status) = true)
    by (apply (humidityLine_clear status fields_ok); trivial).
  assert (Hco2 : clearOf Lit.tempLabel (co2Line status) = true)
    by (apply co2Line_clear; trivial).
  unfold parsedTemperature, extractFloatValue, report. cbv zeta.
  rewrite !(find_skip tempPattern _ _ Hhead).
  unfold temperatureLine.
  destruct (Temperature status) as [t|] eqn:Ht.
  - pose proof (fields_ok_temperature status fields_ok t Ht) as Hok.
    unfold survivesRendering in Hok.
    destruct (ParseFloat (fmt_f1 t)) as [v|] eqn:Hparse; [|discriminate].
    destruct (ParseFloat_syntax _ _ Hparse) as [Hall Hne].
    rewrite !append_assoc.
    change Lit.tempLabel with (label tempPattern).
    change Lit.tempUnit with (closing tempPattern).
    rewrite !(find_at_label tempPattern (fmt_f1 t) _ eq_refl Hall Hne).
    cbn [Datatypes.length Nat.ltb Nat.leb nth]. exact Hparse.
  - change ("" ++ humidityLine status ++ co2Line status)
      with (humidityLine status ++ co2Line status).
    rewrite !(find_nothing tempPattern); [reflexivity | | reflexivity].
    now apply clearOf_append.
Qed.

Lemma parsedHumidity_report :
  parsedHumidity report
  = match Humidity status with
    | Some h => ParseFloat (fmt_f1 h)
    | None => None
    end.
Proof.
  destruct name_clear as (_ & Hname & _).
  assert (Hhead : clearOf Lit.humLabel (headerLine device posts status) = true)
    by (apply headerLine_clear; trivial).
  assert (Htemp : clearOf Lit.humLabel (temperatureLine status) = true)
    by (apply (temperatureLine_clear status fields_ok); trivial).
  assert (Hco2 : clearOf Lit.humLabel (co2Line status) = true)
    by (apply co2Line_clear; trivial).
  unfold parsedHumidity, extractFloatValue, report. cbv zeta.
  rewrite !(find_skip humPattern _ _ Hhead), !(find_skip humPattern _ _ Htemp).
  unfold humidityLine.
  destruct (Humidity status) as [h|] eqn:Hh.
  - pose proof (fields_ok_humidity status fields_ok h Hh) as Hok.
    unfold survivesRendering in Hok.
    destruct (ParseFloat (fmt_f1 h)) as [v|] eqn:Hparse; [|discriminate].
    destruct (ParseFloat_syntax _ _ Hparse) as [Hall Hne].
    rewrite !append_assoc.
    change Lit.humLabel with (label humPattern).
    change Lit.humUnit with (closing humPattern).
    rewrite !(find_at_label humPattern (fmt_f1 h) _ eq_refl Hall Hne).
    cbn [Datatypes.length Nat.ltb Nat.leb nth]. exact Hparse.
  - change ("" ++ co2Line status) with (co2Line status).
    now rewrite !(find_nothing humPattern).
Qed.

Lemma parsedCO2_report : parsedCO2 report = CO2 status.
Proof.
  destruct name_clear as (_ & _ & Hname).
  assert (Hhead : clearOf Lit.co2Label (headerLine device posts status) = true)
    by (apply headerLine_clear; trivial).
  assert (Htemp : clearOf Lit.co2Label (temperatureLine status) = true)
    by (apply (temperatureLine_clear status fields_ok); trivial).
  assert (Hhum : clearOf Lit.co2Label (humidityLine status) = true)
    by (apply (humidityLine_clear status fields_ok); trivial).
  unfold parsedCO2, extractIntValue, report. cbv zeta.
  rewrite !(find_skip co2Pattern _ _ Hhead), !(find_skip co2Pattern _ _ Htemp),
    !(find_skip co2Pattern _ _ Hhum).
  unfold co2Line.
  destruct (CO2 status) as [c|] eqn:Hc; [|reflexivity].
  pose proof (fields_ok_co2 status fields_ok c Hc) as Hrange.
  destruct (fmt_d_digits c (proj1 Hrange)) as (Hall & Hne & _).
  change Lit.co2Label with (label co2Pattern).
  change Lit.co2Unit with (closing co2Pattern).
  rewrite !(find_at_label co2Pattern (fmt_d c) _ eq_refl Hall Hne).
  cbn [Datatypes.length Nat.ltb Nat.leb nth]. now apply Atoi_fmt_d.
Qed.

End RoundTrip.


(** ** Duplicate Detector: further properties *)

Lemma float64_eq_below_zero (v t : float64) :
  plainNonNegative v = true -> belowZero t = true -> float64_eq v t = false.
Proof.
  intros Hv Ht. destruct (float64_eq v t) eqn:Heq; [|reflexivity].
  apply float64_eq_iff in Heq.
  destruct v as [[]|[]| |[] mv ev], t as [[]|[]| |[] mt et];
    try discriminate; try contradiction.
  now destruct Heq.
Qed.

Lemma parsed_float_below_zero (text : string) (pattern : Pattern)
    (t : float64) :
  belowZero t = true ->
  ptrEquals (extractFloatValue text pattern) (Some t) = false.
Proof.
  intros Ht.
  destruct (extractFloatValue text pattern) as [v|] eqn:Hv; [|reflexivity].
  unfold extractFloatValue in Hv.
  destruct (_ <? _)%nat in Hv; [discriminate|].
  apply ParseFloat_plain in Hv.
  exact (float64_eq_below_zero v t Hv Ht).
Qed.

Lemma parsed_int_below_zero (text : string) (pattern : Pattern) (c : Z) :
  c < 0 -> ptrEquals (extractIntValue text pattern) (Some c) = false.
Proof.
  intros Hc.
  destruct (extractIntValue text pattern) as [v|] eqn:Hv; [|reflexivity].
  unfold extractIntValue in Hv.
  destruct (_ <? _)%nat in Hv; [discriminate|].
  apply Atoi_range in Hv.
  cbn. apply Z.eqb_neq. lia.
Qed.

(** A reading with a temperature, a humidity or a CO2 value below zero is
    never classified repeated once the device has a history entry: the
    parser yields no value below zero to compare it with. *)
Theorem reading_below_zero_is_never_repeated :
  forall (current : SwitchBotDeviceStatus) (previousMessages : list string),
    previousMessages <> [] ->
    hasFieldBelowZero current = true ->
    isRepeated current previousMessages = false.
Proof.
  intros current [|msg rest] Hne Hneg; [congruence|].
  rewrite isRepeated_cons.
  unfold hasFieldBelowZero in Hneg. rewrite !orb_true_iff in Hneg.
  unfold parsedTemperature, parsedHumidity, parsedCO2.
  destruct Hneg as [[Ht|Hh]|Hc].
  - destruct (Temperature current) as [t|]; [|discriminate].
    now rewrite (parsed_float_below_zero msg tempPattern t Ht).
  - destruct (Humidity current) as [h|]; [|discriminate].
    rewrite (parsed_float_below_zero msg humPattern h Hh).
    now rewrite andb_false_r.
  - destruct (CO2 current) as [c|]; [|discriminate].
    apply Z.ltb_lt in Hc.
    rewrite (parsed_int_below_zero msg co2Pattern c Hc).
    now rewrite andb_false_r.
Qed.

(** The battery level takes no part in the comparison; a longer history
    is repeated exactly when each of its parts is, so further entries can
    only turn "repeated" into "not repeated". *)
Theorem isRepeated_ignores_battery :
  forall (current : SwitchBotDeviceStatus) (battery : option Z)
         (earlier later : list string),
    isRepeated (withBattery battery current) earlier
    = isRepeated current earlier
    /\ isRepeated current (earlier ++ later)
       = isRepeated current earlier && isRepeated current later.
Proof.
  intros current battery earlier later. split.
  - induction earlier as [|msg rest IH]; [reflexivity|].
    rewrite !isRepeated_cons, IH. reflexivity.
  - induction earlier as [|msg rest IH]; [reflexivity|].
    change ((msg :: rest) ++ later)%list with (msg :: (rest ++ later))%list.
    rewrite !isRepeated_cons, IH. now rewrite !andb_assoc.
Qed.

(** ** The matcher against the expression it stands for *)

Lemma matchHere_complete (p : Pattern) (cap after : string) :
  closesOutside p = true ->
  all (class p) cap = true -> isEmpty cap = false ->
  matchHere p (label p ++ cap ++ closing p ++ after) = Some cap.
Proof.
  unfold closesOutside.
  destruct (closing p) as [|c rest] eqn:Hclose; [discriminate|].
  rewrite negb_true_iff. intros Hc Hcap Hne.
  unfold matchHere. rewrite Hclose, HasPrefix_append, drop_append.
  change (String c rest ++ after) with (String c (rest ++ after)).
  rewrite (span_exact _ _ _ _ Hcap Hc), Hne. cbn [negb andb].
  change (String c (rest ++ after)) with (String c rest ++ after).
  now rewrite HasPrefix_append.
Qed.

Lemma matchHere_sound (p : Pattern) (s cap : string) :
  matchHere p s = Some cap -> matchesAt p s 0 cap.
Proof.
  unfold matchHere.
  destruct (HasPrefix s (label p)) eqn:Hlabel; [|discriminate].
  apply HasPrefix_iff in Hlabel. destruct Hlabel as [r ->].
  rewrite drop_append.
  destruct (span (class p) r) as [cap' rest] eqn:Hspan.
  destruct (span_spec _ _ _ _ Hspan) as [-> Hall].
  destruct (isEmpty cap') eqn:Hne; [discriminate|]. cbn [negb andb].
  destruct (HasPrefix rest (closing p)) eqn:Hclose; [|discriminate].
  apply HasPrefix_iff in Hclose. destruct Hclose as [after ->].
  intros [= <-]. exists "", after. now repeat split.
Qed.

Lemma matchHere_iff (p : Pattern) (s cap : string) :
  closesOutside p = true ->
  (matchHere p s = Some cap <-> matchesAt p s 0 cap).
Proof.
  intros Hout. split; [apply matchHere_sound|].
  intros (before & after & -> & Hlen & Hne & Hall).
  destruct before; [|discriminate].
  now apply matchHere_complete.
Qed.

Lemma matchesAt_succ (p : Pattern) (x : ascii) (s : string) (i : nat)
    (cap : string) :
  matchesAt p (String x s) (S i) cap <-> matchesAt p s i cap.
Proof.
  split.
  - intros (before & after & Htext & Hlen & Hrest).
    destruct before as [|y before]; [discriminate|].
    injection Htext as _ ->. exists before, after.
    split; [reflexivity|]. split; [now injection Hlen | exact Hrest].
  - intros (before & after & -> & Hlen & Hrest).
    exists (String x before), after.
    split; [reflexivity|]. split; [cbn; now rewrite Hlen | exact Hrest].
Qed.

Lemma FindStringSubmatch_least (p : Pattern) (text : string) :
  closesOutside p = true ->
  (FindStringSubmatch p text = []
   /\ forall i cap, ~ matchesAt p text i cap)
  \/ (exists i cap,
         FindStringSubmatch p text = [label p ++ cap ++ closing p; cap]
         /\ matchesAt p text i cap
         /\ forall j cap', matchesAt p text j cap' ->
                           (i < j)%nat \/ (j = i /\ cap' = cap)).
Proof.
  intros Hout. induction text as [|x s IH].
  - cbn [FindStringSubmatch].
    destruct (matchHere p "") as [cap|] eqn:Hm.
    + right. exists O, cap. split; [reflexivity|].
      split; [now apply matchHere_sound|].
      intros j cap' Hj. right.
      assert (j = O) as ->.
      { destruct Hj as (b & a & Htext & Hlen & _).
        destruct b; [now cbn in Hlen | discriminate]. }
      split; [reflexivity|]. apply (matchHere_iff p "" cap' Hout) in Hj.
      congruence.
    + left. split; [reflexivity|]. intros i cap Hi.
      assert (i = O) as ->.
      { destruct Hi as (b & a & Htext & Hlen & _).
        destruct b; [now cbn in Hlen | discriminate]. }
      apply (matchHere_iff p "" cap Hout) in Hi. congruence.
  - cbn [FindStringSubmatch].
    destruct (matchHere p (String x s)) as [cap|] eqn:Hm.
    + right. exists O, cap. split; [reflexivity|].
      split; [now apply matchHere_sound|].
      intros [|j] cap' Hj; [right | left; lia].
      split; [reflexivity|].
      apply (matchHere_iff p _ cap' Hout) in Hj. congruence.
    + destruct IH as [[Hnil Hnone]|(i & cap & Hfind & Hat & Hleast)].
      * left. split; [exact Hnil|]. intros [|i] cap Hi.
        -- apply (matchHere_iff p _ cap Hout) in Hi. congruence.
        -- apply matchesAt_succ in Hi. exact (Hnone i cap Hi).
      * right. exists (S i), cap. split; [exact Hfind|].
        split; [now apply matchesAt_succ|].
        intros [|j] cap' Hj.
        -- apply (matchHere_iff p _ cap' Hout) in Hj. congruence.
        -- apply matchesAt_succ in Hj.
           destruct (Hleast j cap' Hj) as [Hlt|[-> ->]]; [left; lia|].
           right. now split.
Qed.

(** Each of the three expressions of [isRepeated] ends its capture group
    with a literal that begins outside the class of the group.  So the
    search returns nothing exactly when the expression matches nowhere in
    the text, and otherwise the match at the least offset, whose capture
    group is determined by that offset. *)
Theorem FindStringSubmatch_leftmost :
  forall (p : Pattern) (text : string),
    In p [tempPattern; humPattern; co2Pattern] ->
    (FindStringSubmatch p text = []
     /\ forall i cap, ~ matchesAt p text i cap)
    \/ (exists i cap,
           FindStringSubmatch p text = [label p ++ cap ++ closing p; cap]
           /\ matchesAt p text i cap
           /\ forall j cap', matchesAt p text j cap' ->
                             (i < j)%nat \/ (j = i /\ cap' = cap)).
Proof.
  intros p text [<-|[<-|[<-|[]]]]; now apply FindStringSubmatch_least.
Qed.

(** ** The orchestrator: what is requested and in which order *)

Lemma vendorURLs_app (w1 w2 : Trace) :
  vendorURLs (w1 ++ w2)%list = (vendorURLs w1 ++ vendorURLs w2)%list.
Proof. unfold vendorURLs. now rewrite flat_map_app. Qed.

Lemma vendorURLs_backoffTrace (url : string) (k n : nat) :
  forall u,
    In u (vendorURLs
            (flat_map (fun attempt =>
                         [EvVendorGET url; EvSleep (2 ^ Z.of_nat attempt)])
               (seq k n) ++ [EvVendorGET url])%list) ->
    u = url.
Proof.
  revert k. induction n as [|n IH]; intros k u; cbn.
  - intros [<-|[]]. reflexivity.
  - intros [<-|Hu]; [reflexivity | exact (IH (S k) u Hu)].
Qed.

Lemma vendorURLs_requestWithBackoff {T : Type} (env : Env) (dec : Decoder T)
    (url : string) (headers : list (string * string))
    (out : SwitchBotResponse T) (w : Trace) (u : string) :
  In u (vendorURLs (snd (requestWithBackoff env dec url headers out w))) ->
  In u (vendorURLs w) \/ u = url.
Proof.
  destruct (newRequestError env url) as [err|] eqn:Hreq.
  - unfold requestWithBackoff. cbn [backoffLoop]. rewrite Hreq. now left.
  - destruct (backoffLoop_shape env dec url headers 5 0 Hreq eq_refl
                ltac:(lia) out w) as (n & _ & Htrace & _).
    unfold requestWithBackoff. change (Z.of_nat 0) with 0 in Htrace.
    rewrite Htrace, vendorURLs_app, in_app_iff.
    intros [Hw|Hu]; [now left | right].
    exact (vendorURLs_backoffTrace url 0 n u Hu).
Qed.

Lemma vendorURLs_fetchDevices (env : Env) (w : Trace) (u : string) :
  In u (vendorURLs (snd (fetchDevices env w))) ->
  In u (vendorURLs w) \/ u = directoryURL.
Proof.
  unfold fetchDevices, bind.
  pose proof (vendorURLs_requestWithBackoff env (decodeDeviceList env)
                directoryURL (generateSwitchBotHeaders env)
                (zeroResponse (decodeDeviceList env)) w u) as Hu.
  fold directoryURL.
  destruct (requestWithBackoff env (decodeDeviceList env) directoryURL _ _ w)
    as [[err|resp] w1]; exact Hu.
Qed.

Lemma vendorURLs_fetchDeviceStatus (env : Env) (device : SwitchBotDevice)
    (w : Trace) (u : string) :
  In u (vendorURLs (snd (fetchDeviceStatus env device w))) ->
  In u (vendorURLs w) \/ u = statusURL device.
Proof.
  unfold fetchDeviceStatus, bind.
  pose proof (vendorURLs_requestWithBackoff env (decodeStatus env)
                (statusURL device) (generateSwitchBotHeaders env)
                (zeroResponse (decodeStatus env)) w u) as Hu.
  fold (statusURL device).
  destruct (requestWithBackoff env (decodeStatus env) (statusURL device) _ _ w)
    as [[err|resp] w1]; exact Hu.
Qed.

Lemma vendorURLs_fetchRecentMastodonPosts (env : Env) (w : Trace) :
  vendorURLs (snd (fetchRecentMastodonPosts env w)) = vendorURLs w.
Proof.
  unfold fetchRecentMastodonPosts, bind, emit, ret. cbn [snd].
  destruct (verifyCredentials env) as [err|id]; cbn [snd].
  - rewrite vendorURLs_app. apply app_nil_r.
  - destruct (accountStatuses env _); cbn [snd];
      rewrite !vendorURLs_app; cbn; now rewrite !app_nil_r.
Qed.

Lemma vendorURLs_PutMetric (env : Env) (device : SwitchBotDevice)
    (status : SwitchBotDeviceStatus) (w : Trace) :
  vendorURLs (snd (PutMetric env device status w)) = vendorURLs w.
Proof.
  unfold PutMetric, bind, emit, ret.
  destruct (awsConfigError env); [reflexivity|].
  destruct (List.length (metricData status) =? 0)%nat; [reflexivity|].
  cbn [snd].
  destruct (putMetricDataError env (DeviceID device)); cbn [snd];
    rewrite vendorURLs_app; apply app_nil_r.
Qed.

Lemma vendorURLs_generateStatusMessage (env : Env) (device : SwitchBotDevice)
    (posts : list MastodonPost) (w : Trace) (u : string) :
  In u (vendorURLs (snd (generateStatusMessage env device posts w))) ->
  In u (vendorURLs w) \/ u = statusURL device.
Proof.
  rewrite generateStatusMessage_eq.
  pose proof (vendorURLs_fetchDeviceStatus env device w u) as Hu.
  destruct (fetchDeviceStatus env device w) as [[err|status] w1];
    cbn [snd] in *; [exact Hu|].
  now rewrite vendorURLs_PutMetric.
Qed.

Lemma vendorURLs_collectMessages (env : Env) (devices : list SwitchBotDevice)
    (posts : list MastodonPost) (u : string) :
  forall (messages : list string) (w : Trace),
    In u (vendorURLs (snd (collectMessages env devices posts messages w))) ->
    In u (vendorURLs w)
    \/ exists device, In device devices
                      /\ isTargetDevice (DeviceType device) = true
                      /\ u = statusURL device.
Proof.
  induction devices as [|device devices IH]; intros messages w;
    [now left|].
  cbn [collectMessages].
  destruct (isTargetDevice (DeviceType device)) eqn:Htarget; cbn [negb].
  - unfold bind.
    pose proof (vendorURLs_generateStatusMessage env device posts w u) as Hgen.
    destruct (generateStatusMessage env device posts w) as [[err|message] w1];
      cbn [snd] in Hgen; intros Hu; apply IH in Hu;
      (destruct Hu as [Hu|(d & Hd & Ht & ->)];
       [destruct (Hgen Hu) as [Hw| ->];
        [now left | right; exists device; repeat split; [now left | assumption]]
       |right; exists d; repeat split; [now right | assumption]]).
  - intros Hu. apply IH in Hu.
    destruct Hu as [Hu|(d & Hd & Ht & ->)]; [now left|].
    right. exists d. repeat split; [now right | assumption].
Qed.

(** The only vendor requests of a run are those for the directory and
    those for the status of a device that the directory lists with a
    recognized type; no other device is ever queried. *)
Theorem only_recognized_devices_are_queried :
  forall (env : Env) (w : Trace) (url : string),
    In url (vendorURLs (snd (handler env w))) ->
    In url (vendorURLs w)
    \/ url = directoryURL
    \/ exists device,
        In device (directoryOf env w)
        /\ (DeviceType device = "Meter"
            \/ DeviceType device = "MeterPro(CO2)")
        /\ url = statusURL device.
Proof.
  intros env w url. rewrite handler_eq. unfold directoryOf.
  destruct (loadConfigError env); [now left|].
  pose proof (vendorURLs_fetchDevices env w url) as Hdir.
  destruct (fetchDevices env w) as [[err|devices] w1]; cbn [snd] in Hdir;
    [intros Hu; destruct (Hdir Hu); [now left | right; now left]|].
  pose proof (vendorURLs_fetchRecentMastodonPosts env w1) as Hfeed.
  destruct (fetchRecentMastodonPosts env w1) as [[err|posts] w2];
    cbn [snd] in Hfeed.
  - cbn [snd]. rewrite Hfeed. intros Hu.
    destruct (Hdir Hu); [now left | right; now left].
  - pose proof (vendorURLs_collectMessages env devices posts url [] w2) as Hloop.
    assert (Hrun : In url (vendorURLs
                             (snd (collectMessages env devices posts [] w2))) ->
                   In url (vendorURLs w) \/ url = directoryURL
                   \/ exists device,
                       In device devices
                       /\ (DeviceType device = "Meter"
                           \/ DeviceType device = "MeterPro(CO2)")
                       /\ url = statusURL device).
    { intros Hu. destruct (Hloop Hu) as [Hw|(d & Hd & Ht & ->)].
      - rewrite Hfeed in Hw. destruct (Hdir Hw); [now left | right; now left].
      - right. right. exists d. split; [exact Hd|]. split; [|reflexivity].
        unfold isTargetDevice, targetDeviceTypes in Ht. cbn [existsb] in Ht.
        rewrite !orb_true_iff, !String.eqb_eq in Ht.
        destruct Ht as [Ht|[Ht|Ht]]; [now left | now right | discriminate]. }
    destruct (collectMessages env devices posts [] w2) as [[|m ms] w3];
      cbn [snd] in *; [exact Hrun|].
    rewrite vendorURLs_app. cbn. rewrite app_nil_r. exact Hrun.
Qed.

Lemma Subsequence_nil_l {A : Type} (l : list A) : Subsequence [] l.
Proof. induction l; constructor; assumption. Qed.

Lemma composeMessage_header (device : SwitchBotDevice)
    (posts : list MastodonPost) (status : SwitchBotDeviceStatus)
    (message : string) :
  composeMessage device posts status = inr message ->
  exists rest, message = "# " ++ DeviceName device ++ rest.
Proof.
  rewrite composeMessage_eq. intros [= <-].
  unfold headerLine, makeDeviceHeader. rewrite !append_assoc.
  eexists. reflexivity.
Qed.

Lemma isTargetDevice_names (deviceType : string) :
  isTargetDevice deviceType = true ->
  deviceType = "Meter" \/ deviceType = "MeterPro(CO2)".
Proof.
  unfold isTargetDevice, targetDeviceTypes. cbn [existsb].
  rewrite !orb_true_iff, !String.eqb_eq.
  intros [Ht|[Ht|Ht]]; [now left | now right | discriminate].
Qed.

Lemma collectMessages_order (env : Env) (devices : list SwitchBotDevice)
    (posts : list MastodonPost) :
  forall (messages : list string) (w : Trace),
  exists chosen added,
    fst (collectMessages env devices posts messages w)
    = (messages ++ added)%list
    /\ Subsequence chosen devices
    /\ Forall2 (fun device message =>
                  (DeviceType device = "Meter"
                   \/ DeviceType device = "MeterPro(CO2)")
                  /\ exists rest,
                      message = "# " ++ DeviceName device ++ rest)
         chosen added.
Proof.
  induction devices as [|device devices IH]; intros messages w.
  - exists [], []. cbn. rewrite app_nil_r. repeat split; constructor.
  - cbn [collectMessages].
    destruct (isTargetDevice (DeviceType device)) eqn:Htarget; cbn [negb].
    + unfold bind. rewrite generateStatusMessage_eq.
      destruct (fetchDeviceStatus env device w) as [[err|status] w1].
      * destruct (IH messages w1) as (chosen & added & Hfst & Hsub & Hall).
        exists chosen, added. split; [exact Hfst|].
        split; [now constructor | exact Hall].
      * destruct (composeMessage device posts status) as [err|message] eqn:Hmsg.
        -- destruct (IH messages (snd (PutMetric env device status w1)))
             as (chosen & added & Hfst & Hsub & Hall).
           exists chosen, added. split; [exact Hfst|].
           split; [now constructor | exact Hall].
        -- destruct (IH (messages ++ [message])%list
                       (snd (PutMetric env device status w1)))
             as (chosen & added & Hfst & Hsub & Hall).
           exists (device :: chosen), (message :: added).
           split; [rewrite Hfst; now rewrite <- app_assoc|].
           split; [now constructor|].
           constructor; [|exact Hall].
           split; [exact (isTargetDevice_names _ Htarget)|].
           exact (composeMessage_header device posts status message Hmsg).
    + destruct (IH messages w) as (chosen & added & Hfst & Hsub & Hall).
      exists chosen, added. split; [exact Hfst|].
      split; [now constructor | exact Hall].
Qed.

(** The messages of a run follow the order of the directory: they belong,
    one each and in order, to some of the listed devices, each of type
    ["Meter"] or ["MeterPro(CO2)"], and each message begins with ["# "]
    followed by the name of its device. *)
Theorem report_follows_directory_order :
  forall (env : Env) (w : Trace),
  exists chosen,
    Subsequence chosen (directoryOf env w)
    /\ Forall2 (fun device message =>
                  (DeviceType device = "Meter"
                   \/ DeviceType device = "MeterPro(CO2)")
                  /\ exists rest,
                      message = "# " ++ DeviceName device ++ rest)
         chosen (messagesProduced env w).
Proof.
  intros env w. unfold messagesProduced, directoryOf.
  destruct (loadConfigError env);
    [exists []; split; [apply Subsequence_nil_l | constructor]|].
  destruct (fetchDevices env w) as [[err|devices] w1];
    [exists []; split; [apply Subsequence_nil_l | constructor]|].
  destruct (fetchRecentMastodonPosts env w1) as [[err|posts] w2];
    [exists []; split; [apply Subsequence_nil_l | constructor]|].
  destruct (collectMessages_order env devices posts [] w2)
    as (chosen & added & Hfst & Hsub & Hall).
  exists chosen. split; [exact Hsub|]. now rewrite Hfst.
Qed.

(** ** Metrics *)

(** The metrics call sends at most one batch per device, holding one data
    point for each present field among temperature, humidity and CO2 and
    none for the battery; with no such field nothing is sent, and the only
    error left is a missing AWS configuration. *)
Theorem PutMetric_sends_present_fields :
  forall (env : Env) (device : SwitchBotDevice)
         (status : SwitchBotDeviceStatus) (w : Trace),
    List.length (metricData status) = presentFields status
    /\ metricData (withBattery None status) = metricData status
    /\ (snd (PutMetric env device status w) = w
        \/ snd (PutMetric env device status w)
           = (w ++ [EvPutMetricData (DeviceID device) (metricData status)])%list)
    /\ (presentFields status = O ->
        PutMetric env device status w
        = (match awsConfigError env with
           | Some err => Some (Wrap "failed to load AWS config" err)
           | None => None
           end, w))
    /\ (presentFields status <> O -> awsConfigError env = None ->
        PutMetric env device status w
        = (match putMetricDataError env (DeviceID device) with
           | Some err => Some (Wrap "failed to put metric data" err)
           | None => None
           end,
           (w ++ [EvPutMetricData (DeviceID device) (metricData status)])%list)).
Proof.
  intros env device status w.
  assert (Hlen : List.length (metricData status) = presentFields status).
  { unfold metricData, presentFields.
    now destruct (Temperature status), (Humidity status), (CO2 status). }
  split; [exact Hlen|]. split; [reflexivity|].
  unfold PutMetric, bind, emit, ret. rewrite Hlen.
  split; [|split].
  - destruct (awsConfigError env); [now left|].
    destruct (presentFields status =? 0)%nat; [now left|].
    right. now destruct (putMetricDataError env (DeviceID device)).
  - intros ->. now destruct (awsConfigError env).
  - intros Hsome ->. apply Nat.eqb_neq in Hsome. rewrite Hsome.
    now destruct (putMetricDataError env (DeviceID device)).
Qed.

(** ** The feed is read once *)

Lemma feedRequests_app (w1 w2 : Trace) :
  feedRequests (w1 ++ w2)%list = (feedRequests w1 ++ feedRequests w2)%list.
Proof. unfold feedRequests. now rewrite flat_map_app. Qed.

Lemma feedRequests_backoffLoop {T : Type} (env : Env) (dec : Decoder T)
    (url : string) (headers : list (string * string)) (remaining : nat) :
  forall (attempt : Z) (out : SwitchBotResponse T) (w : Trace),
    feedRequests (snd (backoffLoop env dec url headers remaining attempt out w))
    = feedRequests w.
Proof.
  induction remaining as [|remaining IH]; intros attempt out w; [reflexivity|].
  cbn [backoffLoop]. destruct (newRequestError env url); [reflexivity|].
  unfold bind, clientDo, trace, emit, ret, bind. cbn [fst snd].
  assert (Hget : feedRequests (w ++ [EvVendorGET url])%list = feedRequests w)
    by (rewrite feedRequests_app; apply app_nil_r).
  destruct (vendorDo env url headers (attempts w)); try exact Hget.
  destruct (unmarshal dec bodyBytes out) as [err|out']; [exact Hget|].
  destruct (StatusCode out' =? 100); [exact Hget|].
  destruct (StatusCode out' =? 190); [|exact Hget].
  destruct (attempt <? 4); [|exact Hget].
  rewrite IH, feedRequests_app, Hget. apply app_nil_r.
Qed.

Lemma feedRequests_fetchDevices (env : Env) (w : Trace) :
  feedRequests (snd (fetchDevices env w)) = feedRequests w.
Proof.
  unfold fetchDevices, bind, requestWithBackoff.
  match goal with
  | |- context [backoffLoop ?e ?d ?u ?h ?r ?a ?o w] =>
      pose proof (feedRequests_backoffLoop e d u h r a o w) as Hp;
      destruct (backoffLoop e d u h r a o w) as [[err|resp] w1]; exact Hp
  end.
Qed.

Lemma feedRequests_generateStatusMessage (env : Env) (device : SwitchBotDevice)
    (posts : list MastodonPost) (w : Trace) :
  feedRequests (snd (generateStatusMessage env device posts w))
  = feedRequests w.
Proof.
  rewrite generateStatusMessage_eq.
  assert (Hfetch : feedRequests (snd (fetchDeviceStatus env device w))
                   = feedRequests w).
  { unfold fetchDeviceStatus, bind, requestWithBackoff.
    match goal with
    | |- context [backoffLoop ?e ?d ?u ?h ?r ?a ?o w] =>
        pose proof (feedRequests_backoffLoop e d u h r a o w) as Hp;
        destruct (backoffLoop e d u h r a o w) as [[err|resp] w1]; exact Hp
    end. }
  destruct (fetchDeviceStatus env device w) as [[err|status] w1];
    cbn [snd] in *; [exact Hfetch|].
  rewrite <- Hfetch. unfold PutMetric, bind, emit, ret.
  destruct (awsConfigError env); [reflexivity|].
  destruct (List.length (metricData status) =? 0)%nat; [reflexivity|].
  cbn [snd].
  destruct (putMetricDataError env (DeviceID device)); cbn [snd];
    rewrite feedRequests_app; apply app_nil_r.
Qed.

Lemma feedRequests_collectMessages (env : Env)
    (devices : list SwitchBotDevice) (posts : list MastodonPost) :
  forall (messages : list string) (w : Trace),
    feedRequests (snd (collectMessages env devices posts messages w))
    = feedRequests w.
Proof.
  induction devices as [|device devices IH]; intros messages w; [reflexivity|].
  cbn [collectMessages].
  destruct (negb (isTargetDevice (DeviceType device))); [apply IH|].
  unfold bind.
  pose proof (feedRequests_generateStatusMessage env device posts w) as Hp.
  destruct (generateStatusMessage env device posts w) as [[err|message] w1];
    cbn [snd] in Hp; now rewrite IH.
Qed.

Lemma feedRequests_rounds (url : string) (k n : nat) :
  feedRequests
    (flat_map (fun attempt =>
                 [EvVendorGET url; EvSleep (2 ^ Z.of_nat attempt)])
       (seq k n) ++ [EvVendorGET url])%list
  = [].
Proof.
  revert k. induction n as [|n IH]; intros k; [reflexivity|].
  cbn [seq flat_map]. rewrite <- app_assoc, feedRequests_app.
  now rewrite (IH (S k)).
Qed.

(** What a fetch adds to the trace: no feed request, and vendor requests
    for its own URL only. *)
Lemma requestWithBackoff_extends {T : Type} (env : Env) (dec : Decoder T)
    (url : string) (headers : list (string * string))
    (out : SwitchBotResponse T) (w : Trace) :
  exists d,
    snd (requestWithBackoff env dec url headers out w) = (w ++ d)%list
    /\ feedRequests d = []
    /\ forall u, In u (vendorURLs d) -> u = url.
Proof.
  destruct (newRequestError env url) as [err|] eqn:Hreq.
  - exists []. unfold requestWithBackoff. cbn [backoffLoop]. rewrite Hreq.
    cbn. rewrite app_nil_r. repeat split. intros u [].
  - destruct (backoffLoop_shape env dec url headers 5 0 Hreq eq_refl
                ltac:(lia) out w) as (n & _ & Htrace & _).
    unfold requestWithBackoff. change (Z.of_nat 0) with 0 in Htrace.
    eexists. split; [exact Htrace|]. split.
    + apply feedRequests_rounds.
    + apply vendorURLs_backoffTrace.
Qed.

Lemma fetchDevices_extends (env : Env) (w : Trace) :
  exists d,
    snd (fetchDevices env w) = (w ++ d)%list
    /\ feedRequests d = []
    /\ forall u, In u (vendorURLs d) -> u = directoryURL.
Proof.
  unfold fetchDevices, bind. fold directoryURL.
  pose proof (requestWithBackoff_extends env (decodeDeviceList env)
                directoryURL (generateSwitchBotHeaders env)
                (zeroResponse (decodeDeviceList env)) w) as Hd.
  destruct (requestWithBackoff env (decodeDeviceList env) directoryURL _ _ w)
    as [[err|resp] w1]; exact Hd.
Qed.

Lemma generateStatusMessage_extends (env : Env) (device : SwitchBotDevice)
    (posts : list MastodonPost) (w : Trace) :
  exists d,
    snd (generateStatusMessage env device posts w) = (w ++ d)%list
    /\ feedRequests d = []
    /\ forall u, In u (vendorURLs d) -> u = statusURL device.
Proof.
  rewrite generateStatusMessage_eq.
  assert (Hfetch : exists d,
             snd (fetchDeviceStatus env device w) = (w ++ d)%list
             /\ feedRequests d = []
             /\ forall u, In u (vendorURLs d) -> u = statusURL device).
  { unfold fetchDeviceStatus, bind. fold (statusURL device).
    pose proof (requestWithBackoff_extends env (decodeStatus env)
                  (statusURL device) (generateSwitchBotHeaders env)
                  (zeroResponse (decodeStatus env)) w) as Hd.
    destruct (requestWithBackoff env (decodeStatus env) (statusURL device)
                _ _ w) as [[err|resp] w1]; exact Hd. }
  destruct (fetchDeviceStatus env device w) as [[err|status] w1];
    cbn [snd] in *; [exact Hfetch|].
  destruct Hfetch as (d & -> & Hfeed & Hurls).
  unfold PutMetric, bind, emit, ret.
  destruct (awsConfigError env); [exists d; now repeat split|].
  destruct (List.length (metricData status) =? 0)%nat;
    [exists d; now repeat split|].
  exists (d ++ [EvPutMetricData (DeviceID device) (metricData status)])%list.
  split; [destruct (putMetricDataError env (DeviceID device)); cbn [snd];
          now rewrite app_assoc|].
  split.
  - rewrite feedRequests_app, Hfeed. reflexivity.
  - intros u. rewrite vendorURLs_app, in_app_iff. intros [Hu|[]].
    now apply Hurls.
Qed.

Lemma collectMessages_extends (env : Env) (devices : list SwitchBotDevice)
    (posts : list MastodonPost) :
  forall (messages : list string) (w : Trace),
  exists d,
    snd (collectMessages env devices posts messages w) = (w ++ d)%list
    /\ feedRequests d = []
    /\ forall u, In u (vendorURLs d) ->
                 exists device, In device devices /\ u = statusURL device.
Proof.
  induction devices as [|device devices IH]; intros messages w.
  - exists []. cbn. rewrite app_nil_r. repeat split. intros u [].
  - cbn [collectMessages].
    destruct (negb (isTargetDevice (DeviceType device))).
    + destruct (IH messages w) as (d & Hd & Hfeed & Hurls).
      exists d. split; [exact Hd|]. split; [exact Hfeed|].
      intros u Hu. destruct (Hurls u Hu) as (dev & Hin & ->).
      exists dev. split; [now right | reflexivity].
    + unfold bind.
      destruct (generateStatusMessage_extends env device posts w)
        as (d1 & Hd1 & Hfeed1 & Hurls1).
      destruct (generateStatusMessage env device posts w) as [r w1].
      cbn [snd] in Hd1. subst w1.
      assert (Hrest : forall ms,
                 exists d,
                   snd (collectMessages env devices posts ms (w ++ d1)%list)
                   = (w ++ d)%list
                   /\ feedRequests d = []
                   /\ forall u, In u (vendorURLs d) ->
                                exists dev, In dev (device :: devices)
                                            /\ u = statusURL dev).
      { intros ms. destruct (IH ms (w ++ d1)%list) as (d2 & Hd2 & Hfeed2 & Hurls2).
        exists (d1 ++ d2)%list. split; [now rewrite Hd2, app_assoc|].
        split; [now rewrite feedRequests_app, Hfeed1, Hfeed2|].
        intros u. rewrite vendorURLs_app, in_app_iff. intros [Hu|Hu].
        - exists device. split; [now left | now apply Hurls1].
        - destruct (Hurls2 u Hu) as (dev & Hin & ->).
          exists dev. split; [now right | reflexivity]. }
      destruct r as [err|message]; apply Hrest.
Qed.

Lemma statusURL_not_directoryURL (device : SwitchBotDevice) :
  statusURL device <> directoryURL.
Proof.
  unfold statusURL, directoryURL. intros Heq.
  apply (f_equal String.length) in Heq.
  rewrite !length_append in Heq. cbn in Heq. lia.
Qed.

(** A run reads the feed at most once, and before any device is handled.
    What the run adds to the trace is, in this order: the requests for the
    directory; the feed requests (none, or the account lookup, or the
    account lookup and one listing limited to [batteryCheckPostCount]
    posts); then the handling of the devices, which holds every status
    request of the run and no feed request, and which is empty unless both
    feed requests were made. *)
Theorem feed_is_read_once :
  forall (env : Env) (w : Trace),
  exists (before : Trace) (endpoints : list string) (after : Trace),
    snd (handler env w)
    = (w ++ before ++ map EvFeedGET endpoints ++ after)%list
    /\ (endpoints = []
        \/ endpoints = ["/accounts/verify_credentials"]
        \/ exists id,
            verifyCredentials env = inr id
            /\ endpoints
               = ["/accounts/verify_credentials";
                  statusesEndpoint id (batteryCheckPostCount env)])
    /\ feedRequests (snd (handler env w)) = (feedRequests w ++ endpoints)%list
    /\ feedRequests before = []
    /\ (forall url, In url (vendorURLs before) -> url = directoryURL)
    /\ feedRequests after = []
    /\ (forall url, In url (vendorURLs after) ->
                    exists device,
                      In device (directoryOf env w) /\ url = statusURL device)
    /\ (forall device, statusURL device <> directoryURL)
    /\ (after = [] \/ List.length endpoints = 2%nat).
Proof.
  intros env w.
  assert (Hshape :
    exists (before : Trace) (endpoints : list string) (after : Trace),
      snd (handler env w)
      = (w ++ before ++ map EvFeedGET endpoints ++ after)%list
      /\ (endpoints = []
          \/ endpoints = ["/accounts/verify_credentials"]
          \/ exists id,
              verifyCredentials env = inr id
              /\ endpoints
                 = ["/accounts/verify_credentials";
                    statusesEndpoint id (batteryCheckPostCount env)])
      /\ feedRequests before = []
      /\ (forall url, In url (vendorURLs before) -> url = directoryURL)
      /\ feedRequests after = []
      /\ (forall url, In url (vendorURLs after) ->
                      exists device,
                        In device (directoryOf env w)
                        /\ url = statusURL device)
      /\ (after = [] \/ List.length endpoints = 2%nat)).
  { rewrite handler_eq. unfold directoryOf.
    destruct (loadConfigError env).
    { exists [], [], []. cbn. rewrite app_nil_r.
      repeat split; try (now left); intros url []. }
    destruct (fetchDevices_extends env w) as (d1 & Hd1 & Hfeed1 & Hurls1).
    destruct (fetchDevices env w) as [[err|devices] w1]; cbn [snd] in Hd1;
      subst w1.
    { exists d1, [], []. cbn [map app snd]. rewrite app_nil_r.
      repeat split; try (now left); try assumption. intros url []. }
    assert (Hposts :
      exists endpoints,
        snd (fetchRecentMastodonPosts env (w ++ d1)%list)
        = ((w ++ d1) ++ map EvFeedGET endpoints)%list
        /\ (endpoints = ["/accounts/verify_credentials"]
            /\ (exists err, fst (fetchRecentMastodonPosts env (w ++ d1)%list)
                            = inl err)
            \/ exists id,
                verifyCredentials env = inr id
                /\ endpoints
                   = ["/accounts/verify_credentials";
                      statusesEndpoint id (batteryCheckPostCount env)])).
    { unfold fetchRecentMastodonPosts, bind, emit, ret. cbn [fst snd].
      destruct (verifyCredentials env) as [err|id].
      - exists ["/accounts/verify_credentials"]. split; [reflexivity|].
        left. split; [reflexivity | now exists err].
      - exists ["/accounts/verify_credentials";
                statusesEndpoint id (batteryCheckPostCount env)].
        split.
        + destruct (accountStatuses env _); cbn [snd map];
            now rewrite <- app_assoc.
        + right. now exists id. }
    destruct Hposts as (endpoints & Hd2 & Hends).
    destruct (fetchRecentMastodonPosts env (w ++ d1)%list)
      as [[err|posts] w2]; cbn [fst snd] in *; subst w2.
    { exists d1, endpoints, []. rewrite app_nil_r, <- app_assoc.
      split; [reflexivity|]. split.
      - destruct Hends as [[-> _]|Htwo]; [right; now left | right; now right].
      - repeat split; try assumption; try (now left). intros url []. }
    destruct Hends as [[_ (err & Herr)]|(id & Hid & ->)]; [discriminate|].
    destruct (collectMessages_extends env devices posts []
                ((w ++ d1) ++ map EvFeedGET
                   ["/accounts/verify_credentials";
                    statusesEndpoint id (batteryCheckPostCount env)])%list)
      as (d3 & Hd3 & Hfeed3 & Hurls3).
    destruct (collectMessages env devices posts [] _) as [[|m ms] w3];
      cbn [snd] in Hd3; subst w3.
    - exists d1, ["/accounts/verify_credentials";
                  statusesEndpoint id (batteryCheckPostCount env)], d3.
      split; [cbn [snd]; now rewrite <- !app_assoc|].
      split; [right; right; now exists id|].
      repeat split; try assumption. now right.
    - exists d1, ["/accounts/verify_credentials";
                  statusesEndpoint id (batteryCheckPostCount env)],
             (d3 ++ [EvPublish (Join (m :: ms) nl)])%list.
      split; [cbn [snd]; now rewrite <- !app_assoc|].
      split; [right; right; now exists id|].
      split; [assumption|]. split; [assumption|].
      split; [rewrite feedRequests_app, Hfeed3; reflexivity|].
      split; [|now right].
      intros url. rewrite vendorURLs_app, in_app_iff.
      intros [Hu|[]]. now apply Hurls3. }
  destruct Hshape as (before & endpoints & after & Htrace & Hends & Hfb & Hub
                      & Hfa & Hua & Hlen).
  exists before, endpoints, after.
  split; [exact Htrace|]. split; [exact Hends|]. split.
  { rewrite Htrace, !feedRequests_app, Hfb, Hfa, app_nil_r. cbn [app].
    f_equal. clear. induction endpoints as [|e l IH]; [reflexivity|].
    cbn. now rewrite <- IH at 2. }
  split; [exact Hfb|]. split; [exact Hub|]. split; [exact Hfa|].
  split; [exact Hua|]. split; [apply statusURL_not_directoryURL | exact Hlen].
Qed.

(** The requests of a run over a directory of two meters, in order: the
    directory, the two feed requests, then one status request per device. *)
Example twoMeters_requests :
  vendorURLs (snd (handler Scenario.twoMeters []))
  = [directoryURL; statusURL Scenario.livingRoom; statusURL Scenario.study]
  /\ feedRequests (snd (handler Scenario.twoMeters []))
     = ["/accounts/verify_credentials"; "/accounts/42/statuses?limit=7"]
  /\ firstn 3 (snd (handler Scenario.twoMeters []))
     = [EvVendorGET directoryURL;
        EvFeedGET "/accounts/verify_credentials";
        EvFeedGET "/accounts/42/statuses?limit=7"]
  /\ feedRequests (skipn 3 (snd (handler Scenario.twoMeters []))) = []
  /\ vendorURLs (skipn 3 (snd (handler Scenario.twoMeters [])))
     = [statusURL Scenario.livingRoom; statusURL Scenario.study].
Proof. repeat split; vm_compute; reflexivity. Qed.

(** ** Configuration loading *)

(** Loading the configuration never makes the post window zero or
    negative.  As a managed function it cannot fail, it takes the window
    from the environment only when that holds a positive decimal [int],
    and it copies the window into the configuration record; run locally it
    leaves the window as it was, whatever [config.json] says, and fails
    exactly when the file cannot be opened or decoded. *)
Theorem loadConfig_keeps_post_window_positive :
  forall (p : Startup.Process) (g : Startup.Globals),
    0 < Startup.postCount g ->
    0 < Startup.postCount (snd (Startup.loadConfig p g))
    /\ (Startup.isLambda p = true ->
        fst (Startup.loadConfig p g) = None
        /\ Startup.BatteryCheckPostCount
             (Startup.config (snd (Startup.loadConfig p g)))
           = Startup.postCount (snd (Startup.loadConfig p g))
        /\ (Startup.postCount (snd (Startup.loadConfig p g))
            = Startup.postCount g
            \/ Startup.Atoi (Startup.Getenv p "BATTERY_CHECK_POST_COUNT")
               = Some (Startup.postCount (snd (Startup.loadConfig p g)))))
    /\ (Startup.isLambda p = false ->
        Startup.postCount (snd (Startup.loadConfig p g)) = Startup.postCount g
        /\ (fst (Startup.loadConfig p g) = None <->
            exists file,
              Startup.openConfigFile p = inr file
              /\ fst (Startup.decodeConfig p file (Startup.config g)) = None)).
Proof.
  intros p g Hpos. unfold Startup.loadConfig.
  destruct (Startup.isLambda p).
  - cbn [fst snd Startup.postCount Startup.config Startup.BatteryCheckPostCount].
    destruct (negb (String.eqb (Startup.Getenv p "BATTERY_CHECK_POST_COUNT") "")).
    + destruct (Startup.Atoi (Startup.Getenv p "BATTERY_CHECK_POST_COUNT"))
        as [count|].
      * destruct (Z.ltb_spec 0 count).
        -- split; [assumption|]. split; [|discriminate].
           intros _. repeat split. now right.
        -- split; [assumption|]. split; [|discriminate].
           intros _. repeat split. now left.
      * split; [assumption|]. split; [|discriminate].
        intros _. repeat split. now left.
    + split; [assumption|]. split; [|discriminate].
      intros _. repeat split. now left.
  - destruct (Startup.openConfigFile p) as [err|file].
    + cbn [fst snd]. split; [assumption|]. split; [discriminate|].
      intros _. split; [reflexivity|]. split; [discriminate|].
      intros (file & Hfile & _). discriminate.
    + destruct (Startup.decodeConfig p file (Startup.config g))
        as [err decoded] eqn:Hdec.
      cbn [fst snd Startup.postCount]. split; [assumption|].
      split; [discriminate|]. intros _. split; [reflexivity|]. split.
      * intros ->. exists file. split; [reflexivity|]. now rewrite Hdec.
      * intros (file' & [= <-] & Hnone). now rewrite Hdec in Hnone.
Qed.

(** ** Further instances *)

Lemma backoff_at_most_five_requests_witness :
  newRequestError Scenario.alwaysBusy "u" = None
  /\ exists n,
      (n <= 4)%nat
      /\ snd (requestWithBackoff Scenario.alwaysBusy
                (decodeStatus Scenario.alwaysBusy) "u" []
                (zeroResponse (decodeStatus Scenario.alwaysBusy)) [])
         = ([] ++ backoffTrace "u" n)%list.
Proof.
  split; [reflexivity|].
  destruct (backoff_at_most_five_requests _ Scenario.alwaysBusy
              (decodeStatus Scenario.alwaysBusy) "u" []
              (zeroResponse (decodeStatus Scenario.alwaysBusy)) [] eq_refl)
    as (n & Hn & Htrace & _).
  exists n. split; assumption.
Defined.

Lemma backoff_outcomes_witness :
  fst (requestWithBackoff Scenario.busyThenOk
         (decodeStatus Scenario.busyThenOk) "u" []
         (zeroResponse (decodeStatus Scenario.busyThenOk)) [])
  = inr (mkResponse 100 "success" Scenario.fullReading)
  /\ StatusCode (mkResponse 100 "success" Scenario.fullReading) = 100.
Proof.
  split; [reflexivity|].
  apply (proj1 (proj2 (backoff_outcomes _ Scenario.busyThenOk
                         (decodeStatus Scenario.busyThenOk) "u" []
                         (zeroResponse (decodeStatus Scenario.busyThenOk)) []))).
  reflexivity.
Defined.

Lemma stripHTMLTags_idempotent_witness :
  tagFree "# Living Room" = true
  /\ stripHTMLTags "# Living Room" = "# Living Room".
Proof.
  split; [reflexivity|].
  apply (proj1 (proj2 (proj2 (stripHTMLTags_idempotent "# Living Room")))).
  reflexivity.
Defined.



Lemma reading_below_zero_is_never_repeated_witness :
  [Scenario.rendered Scenario.livingRoom [] Scenario.frostReading] <> []
  /\ hasFieldBelowZero Scenario.frostReading = true
  /\ isRepeated Scenario.frostReading
       [Scenario.rendered Scenario.livingRoom [] Scenario.frostReading]
     = false.
Proof.
  split; [discriminate|]. split; [reflexivity|].
  apply reading_below_zero_is_never_repeated; [discriminate | reflexivity].
Defined.

Lemma FindStringSubmatch_leftmost_witness :
  In co2Pattern [tempPattern; humPattern; co2Pattern]
  /\ ((FindStringSubmatch co2Pattern "CO2: ppm CO2: 450ppm" = []
       /\ forall i cap, ~ matchesAt co2Pattern "CO2: ppm CO2: 450ppm" i cap)
      \/ exists i cap,
          FindStringSubmatch co2Pattern "CO2: ppm CO2: 450ppm"
          = [label co2Pattern ++ cap ++ closing co2Pattern; cap]
          /\ matchesAt co2Pattern "CO2: ppm CO2: 450ppm" i cap
          /\ forall j cap',
              matchesAt co2Pattern "CO2: ppm CO2: 450ppm" j cap' ->
              (i < j)%nat \/ (j = i /\ cap' = cap)).
Proof.
  assert (Hin : In co2Pattern [tempPattern; humPattern; co2Pattern])
    by (right; right; left; reflexivity).
  split; [exact Hin|].
  exact (FindStringSubmatch_leftmost co2Pattern "CO2: ppm CO2: 450ppm" Hin).
Defined.

Lemma only_recognized_devices_are_queried_witness :
  In (statusURL Scenario.livingRoom)
    (vendorURLs (snd (handler Scenario.oneMeter [])))
  /\ (In (statusURL Scenario.livingRoom) (vendorURLs [])
      \/ statusURL Scenario.livingRoom = directoryURL
      \/ exists device,
          In device (directoryOf Scenario.oneMeter [])
          /\ (DeviceType device = "Meter"
              \/ DeviceType device = "MeterPro(CO2)")
          /\ statusURL Scenario.livingRoom = statusURL device).
Proof.
  assert (Hin : In (statusURL Scenario.livingRoom)
                  (vendorURLs (snd (handler Scenario.oneMeter []))))
    by (vm_compute; right; left; reflexivity).
  split; [exact Hin|].
  exact (only_recognized_devices_are_queried Scenario.oneMeter [] _ Hin).
Defined.

Lemma PutMetric_sends_present_fields_witness :
  presentFields Scenario.noReading = O
  /\ PutMetric Scenario.metricsDown Scenario.livingRoom Scenario.noReading []
     = (Some (Wrap "failed to load AWS config" (External "no credentials")),
        []).
Proof.
  split; [reflexivity|].
  apply (proj1 (proj2 (proj2 (proj2
           (PutMetric_sends_present_fields Scenario.metricsDown
              Scenario.livingRoom Scenario.noReading []))))).
  reflexivity.
Defined.

Lemma loadConfig_keeps_post_window_positive_witness :
  0 < Startup.postCount Startup.initial
  /\ Startup.isLambda Startup.localProcess = false
  /\ 0 < Startup.postCount
           (snd (Startup.loadConfig Startup.localProcess Startup.initial))
  /\ Startup.postCount
       (snd (Startup.loadConfig Startup.localProcess Startup.initial))
     = Startup.postCount Startup.initial.
Proof.
  assert (Hpos : 0 < Startup.postCount Startup.initial) by (cbn; lia).
  split; [exact Hpos|]. split; [reflexivity|].
  destruct (loadConfig_keeps_post_window_positive Startup.localProcess
              Startup.initial Hpos) as (Hkeep & _ & Hlocal).
  split; [exact Hkeep|]. exact (proj1 (Hlocal eq_refl)).
Defined.

Lemma one_decimal_round_trip_witness :
  0 <= 235 <= 1000
  /\ ptrEquals (ParseFloat (fmt_f1 (Scenario.tenth false 235)))
       (Some (Scenario.tenth false 235)) = true.
Proof.
  split; [lia|]. apply one_decimal_round_trip. lia.
Defined.
